(** * DuckDB SQL editor: connection lifecycle and query execution

    A shallow embedding of the connection manager and query executor of
    [app.py] (functions [get_connection], [reset_with_new_db],
    [get_table_names], [get_table_schema], [reset_connection],
    [execute_query], [change_database_endpoint] and the code-fence
    stripping block of [translate_natural_language_to_sql]).

    Python module globals become fields of an explicit state, exceptions
    an outcome type, and every call that leaves the process (the DuckDB
    binding, the file system, [print]) is a primitive of a small
    state-and-exception monad that records the call in a trace.  What the
    database engine answers is left to an arbitrary environment. *)

From Stdlib Require Import List String Ascii Bool Arith Lia ZArith.
From Stdlib Require Import DecimalString.
Import ListNotations.

Set Implicit Arguments.

(** ** Python strings *)

Module PyStr.

(** A [str] is a sequence of code points; an [ascii] stands for the code
    points U+0000 to U+00FF. *)
Definition str := list ascii.

Definition lit (s : string) : str := list_ascii_of_string s.

Definition str_eq_dec : forall a b : str, {a = b} + {a <> b} :=
  list_eq_dec ascii_dec.

(** [a == b] *)
Fixpoint eqb (a b : str) : bool :=
  match a, b with
  | [], [] => true
  | x :: a', y :: b' => Ascii.eqb x y && eqb a' b'
  | _, _ => false
  end.

(** [c.isspace()] on one code point below 256. *)
Definition is_space (c : ascii) : bool :=
  let n := nat_of_ascii c in
  ((9 <=? n) && (n <=? 13)) || ((28 <=? n) && (n <=? 32))
  || (n =? 133) || (n =? 160).

(** [c.lower()] on one code point below 256. *)
Definition lower_char (c : ascii) : ascii :=
  let n := nat_of_ascii c in
  if ((65 <=? n) && (n <=? 90))
     || ((192 <=? n) && (n <=? 222) && negb (n =? 215))
  then ascii_of_nat (n + 32) else c.

Definition lower (s : str) : str := map lower_char s.

(** [s.startswith(p)] *)
Fixpoint startswith (s p : str) {struct p} : bool :=
  match p, s with
  | [], _ => true
  | _ :: _, [] => false
  | a :: p', b :: s' => Ascii.eqb a b && startswith s' p'
  end.

(** [s.endswith(p)] *)
Definition endswith (s p : str) : bool := startswith (rev s) (rev p).

(** [needle in hay] *)
Fixpoint contains (needle hay : str) : bool :=
  startswith hay needle
  || match hay with
     | [] => false
     | _ :: hay' => contains needle hay'
     end.

(** [s.find(c)] for a one-character [c]; [None] stands for [-1]. *)
Fixpoint find (c : ascii) (s : str) : option nat :=
  match s with
  | [] => None
  | a :: s' => if Ascii.eqb a c then Some 0
               else option_map S (find c s')
  end.

Fixpoint lstrip (s : str) : str :=
  match s with
  | [] => []
  | a :: s' => if is_space a then lstrip s' else s
  end.

Definition rstrip (s : str) : str := rev (lstrip (rev s)).

(** [s.strip()] *)
Definition strip (s : str) : str := lstrip (rstrip s).

(** [s[n:]] and [s[:n]] for [0 <= n], and [s[:-n]] for [0 < n]. *)
Definition slice_from (n : nat) (s : str) : str := skipn n s.
Definition slice_to (n : nat) (s : str) : str := firstn n s.
Definition slice_to_neg (n : nat) (s : str) : str :=
  firstn (List.length s - n) s.

(** [str(n)] for a natural number. *)
Definition of_nat (n : nat) : str :=
  lit (NilEmpty.string_of_uint (Nat.to_uint n)).

Definition newline : ascii := ascii_of_nat 10.

End PyStr.

Import PyStr.

Notation "'$' s" := (lit s) (at level 1, s at level 0, format "'$' s").

(** ** Values, exceptions and outcomes *)

(** Scalar values of a result row. *)
Inductive Value : Type :=
| VNull
| VInt (z : Z)
| VText (s : str)
| VBool (b : bool).

Definition Row := list Value.

(** One entry of [conn.description]; [col[0]] is the column name. *)
Definition ColumnDesc := (str * str)%type.

(** What [conn.execute(q)] leaves behind when it succeeds: the rows that
    [fetchall()] returns and the value of [conn.description]. *)
Record ResultSet : Type := mkResultSet {
  rs_rows : list Row;
  rs_description : option (list ColumnDesc)
}.

Inductive ExnClass : Type :=
| FileNotFoundError
| OSError
| IndexError
| DuckDBError.

(** A Python exception object (a subclass of [Exception]); [str(e)] is
    its message. *)
Record Exn : Type := mkExn { exn_class : ExnClass; exn_msg : str }.

Definition str_of_exn (e : Exn) : str := exn_msg e.

(** A Python call either returns a value or raises. *)
Inductive Outcome (A : Type) : Type :=
| Return (a : A)
| Raise (e : Exn).

Arguments Return {A} a.
Arguments Raise {A} e.

(** The connection object returned by [duckdb.connect]: its identity and
    the file it is bound to. *)
Record Conn : Type := mkConn { conn_id : nat; conn_path : str }.

Definition Conn_eq_dec : forall a b : Conn, {a = b} + {a <> b}.
Proof.
  decide equality; [apply str_eq_dec | apply Nat.eq_dec].
Defined.

(** ** The file system and the environment *)

(** Regular files by resolved path. *)
Definition FS := list (str * str).

Fixpoint fs_lookup (p : str) (f : FS) : option str :=
  match f with
  | [] => None
  | (q, c) :: f' => if str_eq_dec q p then Some c else fs_lookup p f'
  end.

Fixpoint fs_remove (p : str) (f : FS) : FS :=
  match f with
  | [] => []
  | (q, c) :: f' =>
      if str_eq_dec q p then fs_remove p f' else (q, c) :: fs_remove p f'
  end.

Definition fs_write (p c : str) (f : FS) : FS := (p, c) :: fs_remove p f.

Definition fs_exists (p : str) (f : FS) : bool :=
  match fs_lookup p f with Some _ => true | None => false end.

Inductive IoOp : Type :=
| OpMkdir (p : str)
| OpOpenWrite (p : str)
| OpWrite (p : str)
| OpUnlink (p : str).

(** The environment decides what the calls that leave the process answer:
    whether the engine opens a file, closes a handle or runs a statement,
    and whether a file operation fails.  [E] is its private state; nothing
    is assumed about it. *)
Class Env (E : Type) : Type := {
  (** [str(Path(p).resolve())] *)
  resolve : str -> str;
  (** [duckdb.connect(p, read_only=True)]; [None] when it succeeds *)
  engine_connect : E -> FS -> str -> option Exn * E;
  (** [conn.close()] *)
  engine_close : E -> Conn -> option Exn * E;
  (** [conn.execute(q).fetchall()] followed by [conn.description] *)
  engine_execute : E -> FS -> Conn -> str -> Outcome ResultSet * E;
  (** whether a file operation raises *)
  io_fault : E -> FS -> IoOp -> option Exn * E
}.

(** Calls that leave the process, in the order they were made (latest
    first). *)
Inductive Event : Type :=
| EvPrint (line : str)
| EvConnect (path : str) (res : option Conn)
| EvClose (c : Conn) (ok : bool)
| EvExecute (c : Conn) (sql : str) (ok : bool)
| EvIo (op : IoOp) (ok : bool).

(** ** Program state

    The module globals [_db_connection] and [DB_PATH], the file system,
    the environment, the trace, and the identity of the next connection
    object. *)
Record State (E : Type) : Type := mkState {
  oracle : E;
  fs : FS;
  _db_connection : option Conn;
  DB_PATH : str;
  trace : list Event;
  next_id : nat
}.

Section Program.

Context {E : Type} `{Env E}.

(** *** The monad *)

Definition M (A : Type) : Type := State E -> Outcome A * State E.

Definition ret {A} (a : A) : M A := fun st => (Return a, st).

Definition raise {A} (e : Exn) : M A := fun st => (Raise e, st).

Definition bind {A B} (m : M A) (k : A -> M B) : M B :=
  fun st =>
    match m st with
    | (Return a, st') => k a st'
    | (Raise e, st') => (Raise e, st')
    end.

(** [try: body except Exception as e: handler e] *)
Definition try_except {A} (body : M A) (handler : Exn -> M A) : M A :=
  fun st =>
    match body st with
    | (Return a, st') => (Return a, st')
    | (Raise e, st') => handler e st'
    end.

(** [try: body finally: fin] *)
Definition try_finally {A} (body : M A) (fin : M unit) : M A :=
  fun st =>
    match body st with
    | (r, st') =>
        match fin st' with
        | (Return _, st'') => (r, st'')
        | (Raise e, st'') => (Raise e, st'')
        end
    end.

Local Notation "x <- m ;; k" := (bind m (fun x => k))
  (at level 100, m at next level, right associativity).
Local Notation "m ;;; k" := (bind m (fun _ => k))
  (at level 100, right associativity).

(** *** Primitives *)

Definition log (ev : Event) (st : State E) : State E :=
  mkState (oracle st) (fs st) (_db_connection st) (DB_PATH st)
          (ev :: trace st) (next_id st).

Definition with_oracle (o : E) (st : State E) : State E :=
  mkState o (fs st) (_db_connection st) (DB_PATH st) (trace st) (next_id st).

Definition with_fs (f : FS) (st : State E) : State E :=
  mkState (oracle st) f (_db_connection st) (DB_PATH st) (trace st)
          (next_id st).

Definition print (line : str) : M unit :=
  fun st => (Return tt, log (EvPrint line) st).

Definition read_conn : M (option Conn) :=
  fun st => (Return (_db_connection st), st).

Definition write_conn (c : option Conn) : M unit :=
  fun st => (Return tt,
             mkState (oracle st) (fs st) c (DB_PATH st) (trace st)
                     (next_id st)).

Definition read_DB_PATH : M str := fun st => (Return (DB_PATH st), st).

Definition write_DB_PATH (p : str) : M unit :=
  fun st => (Return tt,
             mkState (oracle st) (fs st) (_db_connection st) p (trace st)
                     (next_id st)).

(** [p.exists()] for a resolved path [p] *)
Definition path_exists (p : str) : M bool :=
  fun st => (Return (fs_exists p (fs st)), st).

(** [duckdb.connect(p, read_only=True)]: a new connection object *)
Definition duckdb_connect (p : str) : M Conn :=
  fun st =>
    match engine_connect (oracle st) (fs st) p with
    | (None, o) =>
        let h := mkConn (next_id st) p in
        (Return h,
         mkState o (fs st) (_db_connection st) (DB_PATH st)
                 (EvConnect p (Some h) :: trace st) (S (next_id st)))
    | (Some e, o) => (Raise e, log (EvConnect p None) (with_oracle o st))
    end.

(** [c.close()] *)
Definition conn_close (c : Conn) : M unit :=
  fun st =>
    match engine_close (oracle st) c with
    | (None, o) => (Return tt, log (EvClose c true) (with_oracle o st))
    | (Some e, o) => (Raise e, log (EvClose c false) (with_oracle o st))
    end.

(** [c.execute(q).fetchall()] together with [c.description] *)
Definition conn_execute (c : Conn) (q : str) : M ResultSet :=
  fun st =>
    match engine_execute (oracle st) (fs st) c q with
    | (Return rs, o) =>
        (Return rs, log (EvExecute c q true) (with_oracle o st))
    | (Raise e, o) => (Raise e, log (EvExecute c q false) (with_oracle o st))
    end.

(** A file operation: it raises when the environment says so, and
    otherwise changes the file system by [effect]. *)
Definition io (op : IoOp) (effect : FS -> FS) : M unit :=
  fun st =>
    match io_fault (oracle st) (fs st) op with
    | (None, o) =>
        (Return tt, log (EvIo op true) (with_fs (effect (fs st))
                                                (with_oracle o st)))
    | (Some e, o) => (Raise e, log (EvIo op false) (with_oracle o st))
    end.

(** [[col[0] for col in description]] *)
Definition column_names (d : option (list ColumnDesc)) : list str :=
  match d with
  | Some cols => map fst cols
  | None => []
  end.

(** *** [get_connection] (lines 28-45) *)
Definition get_connection : M Conn :=
  try_except
    (c <- read_conn ;;
     match c with
     | None =>
         p <- read_DB_PATH ;;
         let db_path := resolve p in
         ex <- path_exists db_path ;;
         if negb ex then
           raise (mkExn FileNotFoundError
                        ($"Database file not found: " ++ db_path))
         else
           print ($"Opening new database connection to " ++ db_path
                   ++ $" (singleton)") ;;;
           h <- duckdb_connect db_path ;;
           write_conn (Some h) ;;;
           ret h
     | Some h => ret h
     end)
    (fun e =>
       print ($"Error connecting to database: " ++ str_of_exn e) ;;;
       raise e).

(** *** [reset_with_new_db] (lines 47-82) *)
Definition reset_with_new_db (new_db_path : str) : M (bool * option str) :=
  print ($"Changing database to: " ++ new_db_path) ;;;
  try_except
    (c <- read_conn ;;
     match c with
     | Some h =>
         try_finally
           (try_except (conn_close h)
              (fun e => print ($"Error closing existing connection: "
                                ++ str_of_exn e)))
           (write_conn None)
     | None => ret tt
     end ;;;
     write_DB_PATH new_db_path ;;;
     p <- read_DB_PATH ;;
     let db_path := resolve p in
     ex <- path_exists db_path ;;
     if negb ex then
       raise (mkExn FileNotFoundError
                    ($"Database file not found: " ++ db_path))
     else
       print ($"Creating new database connection to " ++ db_path) ;;;
       h <- duckdb_connect db_path ;;
       write_conn (Some h) ;;;
       conn_execute h $"SELECT 1" ;;;
       print $"Connection change successful" ;;;
       ret (true, None))
    (fun e =>
       let error_msg := $"Failed to change database: " ++ str_of_exn e in
       print error_msg ;;;
       write_conn None ;;;
       ret (false, Some error_msg)).

(** [[table[0] for table in tables]] *)
Fixpoint first_fields (tables : list Row) : Outcome (list Value) :=
  match tables with
  | [] => Return []
  | table :: rest =>
      match table with
      | [] => Raise (mkExn IndexError $"tuple index out of range")
      | v :: _ =>
          match first_fields rest with
          | Return vs => Return (v :: vs)
          | Raise e => Raise e
          end
      end
  end.

Definition lift {A} (o : Outcome A) : M A := fun st => (o, st).

(** *** [get_table_names] (lines 84-93) *)
Definition get_table_names : M (list Value) :=
  conn <- get_connection ;;
  try_except
    (rs <- conn_execute conn $"SHOW TABLES" ;;
     lift (first_fields (rs_rows rs)))
    (fun e =>
       print ($"Error fetching table names: " ++ str_of_exn e) ;;;
       ret []).

(** *** [get_table_schema] (lines 96-107) *)
Definition get_table_schema (table_name : str) : M (list Row) :=
  conn <- get_connection ;;
  try_except
    (print ($"Fetching schema for table: " ++ table_name) ;;;
     rs <- conn_execute conn ($"DESCRIBE " ++ table_name) ;;
     let schema := rs_rows rs in
     print ($"Schema for " ++ table_name ++ $": "
             ++ of_nat (List.length schema) ++ $" columns") ;;;
     ret schema)
    (fun e =>
       print ($"Error fetching schema for table " ++ table_name ++ $": "
               ++ str_of_exn e) ;;;
       ret []).

(** *** [reset_connection] (lines 110-136) *)
Definition reset_connection : M bool :=
  print $"Resetting database connection..." ;;;
  try_except
    (c <- read_conn ;;
     match c with
     | Some h =>
         try_finally
           (try_except (conn_close h)
              (fun e => print ($"Error closing existing connection: "
                                ++ str_of_exn e)))
           (write_conn None)
     | None => ret tt
     end ;;;
     p <- read_DB_PATH ;;
     let db_path := resolve p in
     print ($"Creating new database connection to " ++ db_path) ;;;
     h <- duckdb_connect db_path ;;
     write_conn (Some h) ;;;
     conn_execute h $"SELECT 1" ;;;
     print $"Connection reset successful" ;;;
     ret true)
    (fun e =>
       print ($"Failed to reset connection: " ++ str_of_exn e) ;;;
       write_conn None ;;;
       ret false).

(** The dictionary returned by [execute_query]: the key ["error"] is
    present on the failure paths only. *)
Record QueryResult : Type := mkQueryResult {
  qr_error : option str;
  qr_columns : list str;
  qr_data : list Row
}.

(** ["connection" in str(e).lower() or "database" in str(e).lower()] *)
Definition connection_issue (e : Exn) : bool :=
  contains $"connection" (lower (str_of_exn e))
  || contains $"database" (lower (str_of_exn e)).

(** *** [execute_query] (lines 138-175) *)
Definition execute_query (query : str) : M QueryResult :=
  conn <- get_connection ;;
  try_except
    (print ($"Executing query: " ++ slice_to 100 query ++ $"...") ;;;
     rs <- conn_execute conn query ;;
     let result := rs_rows rs in
     let columns := column_names (rs_description rs) in
     print ($"Query executed successfully, returned "
             ++ of_nat (List.length result) ++ $" rows") ;;;
     ret (mkQueryResult None columns result))
    (fun e =>
       print ($"Error executing query: " ++ str_of_exn e) ;;;
       let final := ret (mkQueryResult (Some (str_of_exn e)) [] []) in
       if connection_issue e then
         print $"Connection issue detected, attempting to reset..." ;;;
         ok <- reset_connection ;;
         if (ok : bool) then
           try_except
             (conn <- get_connection ;;
              print $"Retrying query after connection reset..." ;;;
              rs <- conn_execute conn query ;;
              let result := rs_rows rs in
              let columns := column_names (rs_description rs) in
              print ($"Retry successful, returned "
                      ++ of_nat (List.length result) ++ $" rows") ;;;
              ret (mkQueryResult None columns result))
             (fun retry_error =>
                print ($"Retry failed: " ++ str_of_exn retry_error) ;;;
                ret (mkQueryResult
                       (Some ($"Query failed after connection reset: "
                               ++ str_of_exn retry_error)) [] []))
         else final
       else final).

(** The part of the form that [change_database_endpoint] reads: the
    field [db_file], when the form has one. *)
Record UploadFile : Type := mkUploadFile {
  filename : str;
  content : str
}.

Record Request : Type := mkRequest { form_db_file : option UploadFile }.

Record SwapResponse : Type := mkSwapResponse {
  success : bool;
  message : str
}.

(** [Path("./temp_db") / name]: an absolute [name] replaces the
    directory.  The text is that of [str] for a [name] without [.]
    components and repeated slashes, which [pathlib] drops. *)
Definition temp_path (name : str) : str :=
  if startswith name $"/" then name else $"temp_db/" ++ name.

(** *** [change_database_endpoint] (lines 2627-2666) *)
Definition change_database_endpoint (request : Request) : M SwapResponse :=
  try_except
    (match form_db_file request with
     | Some file =>
         if eqb (filename file) [] then
           ret (mkSwapResponse false $"No file selected")
         else if negb (endswith (filename file) $".duckdb"
                       || endswith (filename file) $".db") then
           ret (mkSwapResponse false
                  $"Invalid file type. Please upload a .duckdb or .db file")
         else
           let temp_dir := $"temp_db" in
           io (OpMkdir (resolve temp_dir)) (fun f => f) ;;;
           let file_path := temp_path (filename file) in
           io (OpOpenWrite (resolve file_path))
              (fs_write (resolve file_path) []) ;;;
           io (OpWrite (resolve file_path))
              (fs_write (resolve file_path) (content file)) ;;;
           r <- reset_with_new_db file_path ;;
           let '(ok, error) := r in
           if (ok : bool) then
             ret (mkSwapResponse true
                    ($"Successfully connected to " ++ filename file))
           else
             ex <- path_exists (resolve file_path) ;;
             (if (ex : bool) then
                io (OpUnlink (resolve file_path))
                   (fs_remove (resolve file_path))
              else ret tt) ;;;
             ret (mkSwapResponse false
                    ($"Failed to connect: "
                      ++ match error with Some m => m | None => $"None" end))
     | None => ret (mkSwapResponse false $"No file uploaded")
     end)
    (fun e =>
       print ($"Error in change-database: " ++ str_of_exn e) ;;;
       ret (mkSwapResponse false ($"An error occurred: " ++ str_of_exn e))).

(** *** Code-fence stripping in [translate_natural_language_to_sql]
    (lines 2823-2841): from the [content] of the translator's reply to
    the text returned under ["sql"]. *)
Definition fence : str := $"```".

Definition strip_code_fences (content : str) : str :=
  let sql_query := strip content in
  let sql_query :=
    if startswith sql_query fence then
      match find newline sql_query with
      | Some first_line_break => slice_from (first_line_break + 1) sql_query
      | None => slice_from 3 sql_query
      end
    else sql_query in
  let sql_query :=
    if endswith sql_query fence then slice_to_neg 3 sql_query
    else sql_query in
  strip sql_query.

End Program.

Arguments M E A : clear implicits.

(** A sequence of [n] calls to [get_connection] with nothing in between;
    a call that raises does not stop the next one. *)
Fixpoint get_calls {E} `{Env E} (n : nat) (st : State E)
  : list (Outcome Conn) * State E :=
  match n with
  | 0 => ([], st)
  | S n' =>
      let (r, st1) := get_connection st in
      let (rs, st2) := get_calls n' st1 in
      (r :: rs, st2)
  end.

(** A string is trimmed when neither end is whitespace. *)
Definition trimmed (s : str) : Prop :=
  (forall c r, s = c :: r -> is_space c = false) /\
  (forall c r, s = r ++ [c] -> is_space c = false).

(** ** Helpers of the presentation layer *)

(** [truncate_text] (lines 2354-2358), for [max_length >= 0]. *)
Definition truncate_text (text : str) (max_length : nat) : str :=
  if List.length text <=? max_length then text
  else slice_to max_length text ++ $"...".

(** [is_json] (lines 2335-2351).  [json_loads s] is the exception that
    [json.loads(s)] raises, if it raises; the bare [except] turns any of
    them into [False]. *)
Definition is_json (json_loads : str -> option Exn) (value : Value) : bool :=
  match value with
  | VText s =>
      let value := strip s in
      if negb ((startswith value $"{" && endswith value $"}")
               || (startswith value $"[" && endswith value $"]"))
      then false
      else match json_loads value with
           | None => true
           | Some _ => false
           end
  | _ => false
  end.

(** ** Schema summary for the translator *)

(** [str(v)] of a scalar. *)
Definition str_of_value (v : Value) : str :=
  match v with
  | VNull => $"None"
  | VInt z => lit (NilEmpty.string_of_int (Z.to_int z))
  | VText s => s
  | VBool true => $"True"
  | VBool false => $"False"
  end.

(** The truth value of a scalar in a condition. *)
Definition truthy (v : Value) : bool :=
  match v with
  | VNull => false
  | VInt z => negb (Z.eqb z 0)
  | VText s => negb (eqb s [])
  | VBool b => b
  end.

(** [a == b] on scalars, as the keys of a dictionary compare: [True] is
    [1] and [False] is [0]. *)
Definition value_eqb (a b : Value) : bool :=
  match a, b with
  | VNull, VNull => true
  | VText s, VText t => eqb s t
  | VInt x, VInt y => Z.eqb x y
  | VBool x, VBool y => Bool.eqb x y
  | VInt x, VBool y => Z.eqb x (if y then 1 else 0)%Z
  | VBool x, VInt y => Z.eqb (if x then 1 else 0)%Z y
  | _, _ => false
  end.

(** A dictionary keyed by scalars, in insertion order. *)
Definition Dict (V : Type) := list (Value * V).

(** [d[k] = v]: an existing key keeps its place and its key object. *)
Fixpoint dict_set {V} (k : Value) (v : V) (d : Dict V) : Dict V :=
  match d with
  | [] => [(k, v)]
  | (k', v') :: d' =>
      if value_eqb k' k then (k', v) :: d' else (k', v') :: dict_set k v d'
  end.

(** [d.get(k)] *)
Fixpoint dict_get {V} (k : Value) (d : Dict V) : option V :=
  match d with
  | [] => None
  | (k', v) :: d' => if value_eqb k' k then Some v else dict_get k d'
  end.

(** [{"name": col[0], "type": col[1], "nullable": col[3]}] *)
Record ColumnInfo : Type := mkColumnInfo {
  ci_name : Value;
  ci_type : Value;
  ci_nullable : Value
}.

(** A row of sample data: column names and values, both text. *)
Definition SampleRow := list (str * str).

(** The dictionary stored for one table: the keys ["columns"],
    ["sample_data"] and ["error"], each present or not. *)
Record TableInfo : Type := mkTableInfo {
  ti_columns : option (list ColumnInfo);
  ti_sample_data : option (list SampleRow);
  ti_error : option str
}.

Definition SchemaInfo := Dict TableInfo.

(** The dictionary comprehension over [schema]: [col[3]] needs four
    fields. *)
Fixpoint column_infos (schema : list Row) : Outcome (list ColumnInfo) :=
  match schema with
  | [] => Return []
  | col :: rest =>
      match col with
      | c0 :: c1 :: _ :: c3 :: _ =>
          match column_infos rest with
          | Return cs => Return (mkColumnInfo c0 c1 c3 :: cs)
          | Raise e => Raise e
          end
      | _ => Raise (mkExn IndexError $"tuple index out of range")
      end
  end.

(** [sep.join(parts)] *)
Definition join (sep : str) (parts : list str) : str :=
  match parts with
  | [] => []
  | p :: ps => p ++ flat_map (fun q => sep ++ q) ps
  end.

(** One column line of [format_for_openai]. *)
Definition format_column (col : ColumnInfo) : str :=
  let nullable := if truthy (ci_nullable col) then $"NULL" else $"NOT NULL" in
  $"  - " ++ str_of_value (ci_name col) ++ $" ("
    ++ str_of_value (ci_type col) ++ $", " ++ nullable ++ $")".

(** One value of a sample row, cut to fifty characters. *)
Definition format_sample_value (val : str) : str :=
  if 50 <? List.length val then slice_to 47 val ++ $"..." else val.

(** One [ROW] line; [i] counts from zero. *)
Definition format_sample_row (i : nat) (row : SampleRow) : str :=
  let row_str :=
    map (fun cv => fst cv ++ $"=" ++ format_sample_value (snd cv)) row in
  $"  ROW " ++ of_nat (i + 1) ++ $": " ++ join $", " row_str.

(** The lines that [format_for_openai] appends for one table. *)
Definition format_table (table_name : Value) (table_info : TableInfo)
  : list str :=
  [$"TABLE: " ++ str_of_value table_name; $"COLUMNS:"]
  ++ map format_column
       (match ti_columns table_info with Some cs => cs | None => [] end)
  ++ (let sample_data :=
        match ti_sample_data table_info with Some d => d | None => [] end in
      match sample_data with
      | [] => []
      | _ :: _ =>
          ([newline] ++ $"SAMPLE DATA ("
             ++ of_nat (List.length sample_data) ++ $" rows):")
          :: map (fun ir => format_sample_row (fst ir) (snd ir))
                 (combine (seq 0 (List.length sample_data)) sample_data)
      end).

(** [formatted_text] at the end of [format_for_openai]. *)
Definition formatted_text (schema_info : SchemaInfo) : list str :=
  flat_map (fun kv => format_table (fst kv) (snd kv)) schema_info.

(** A line that names a table. *)
Definition is_table_line (line : str) : bool := startswith line $"TABLE: ".

(** *** [format_for_openai] (lines 2715-2744) *)
Definition format_for_openai (schema_info : SchemaInfo) : str :=
  join [newline] (formatted_text schema_info).

Section Introspection.

Context {E : Type} `{Env E}.

Local Notation "x <- m ;; k" := (bind m (fun x => k))
  (at level 100, m at next level, right associativity).
Local Notation "m ;;; k" := (bind m (fun _ => k))
  (at level 100, right associativity).

(** The body of the loop of [get_database_schema_info] for one table:
    the entry stored under it. *)
Definition table_entry (table : Value) : M E TableInfo :=
  try_except
    (schema <- get_table_schema (str_of_value table) ;;
     lift (first_fields schema) ;;;
     columns <- lift (column_infos schema) ;;
     ret (mkTableInfo (Some columns) None None))
    (fun e =>
       print ($"Error getting schema info for table " ++ str_of_value table
               ++ $": " ++ str_of_exn e) ;;;
       ret (mkTableInfo None None (Some (str_of_exn e)))).

(** The loop over [tables], from the dictionary built so far. *)
Fixpoint schema_loop (tables : list Value) (schema_info : SchemaInfo)
  : M E SchemaInfo :=
  match tables with
  | [] => ret schema_info
  | table :: rest =>
      entry <- table_entry table ;;
      schema_loop rest (dict_set table entry schema_info)
  end.

(** *** [get_database_schema_info] (lines 2690-2713) *)
Definition get_database_schema_info : M E SchemaInfo :=
  tables <- get_table_names ;;
  schema_loop tables [].

(** *** [cleanup_resources] (lines 2669-2688).  Directories are not part
    of the file system above: whether [temp_db] exists, and what
    [shutil.rmtree] does when it fails, is the environment's. *)
Section Shutdown.

(** [Path("./temp_db").exists()] *)
Variable temp_dir_exists : E -> FS -> bool.

(** [shutil.rmtree(temp_dir)]: [None] when it succeeds, otherwise the
    exception and the files it left. *)
Variable rmtree_fault : E -> FS -> option (Exn * FS) * E.

(** The files that are not below directory [dir]. *)
Definition fs_rmtree (dir : str) (f : FS) : FS :=
  filter (fun pc => negb (startswith (fst pc) (dir ++ $"/"))) f.

Definition rmtree (dir : str) : M E unit :=
  fun st =>
    match rmtree_fault (oracle st) (fs st) with
    | (None, o) =>
        (Return tt, with_fs (fs_rmtree dir (fs st)) (with_oracle o st))
    | (Some (e, left_over), o) =>
        (Raise e, with_fs left_over (with_oracle o st))
    end.

Definition cleanup_resources : M E unit :=
  c <- read_conn ;;
  match c with
  | Some h =>
      print $"Closing database connection on shutdown" ;;;
      try_except
        (conn_close h ;;; write_conn None)
        (fun e => print ($"Error closing database connection: "
                          ++ str_of_exn e))
  | None => ret tt
  end ;;;
  try_except
    (let temp_dir := resolve $"temp_db" in
     ex <- (fun st => (Return (temp_dir_exists (oracle st) (fs st)), st)) ;;
     if (ex : bool) then
       print $"Cleaning up temporary database directory" ;;;
       rmtree temp_dir
     else ret tt)
    (fun e => print ($"Error cleaning up temporary files: "
                      ++ str_of_exn e)).

End Shutdown.

End Introspection.

(** [m] does not change the configured path. *)
Definition keeps_path {E A} (m : M E A) : Prop :=
  forall st, DB_PATH (snd (m st)) = DB_PATH st.

(** ** Reading the trace *)

Definition is_execute (ev : Event) : bool :=
  match ev with EvExecute _ _ _ => true | _ => false end.

Definition is_connect (ev : Event) : bool :=
  match ev with EvConnect _ _ => true | _ => false end.

Definition printed (line : str) (ev : Event) : bool :=
  match ev with EvPrint l => eqb l line | _ => false end.

Definition count (f : Event -> bool) (tr : list Event) : nat :=
  List.length (filter f tr).

(** [reset_connection] announces itself once per call, and so does the
    retry of [execute_query]. *)
Definition resets (tr : list Event) : nat :=
  count (printed $"Resetting database connection...") tr.

Definition retries (tr : list Event) : nat :=
  count (printed $"Retrying query after connection reset...") tr.

(** [reset_connection] reports each success once. *)
Definition reset_successes (tr : list Event) : nat :=
  count (printed $"Connection reset successful") tr.

(** Handles the engine has opened and not closed, from a trace (latest
    event first). *)
Fixpoint live_handles (tr : list Event) : list Conn :=
  match tr with
  | [] => []
  | EvConnect _ (Some h) :: tr' => h :: live_handles tr'
  | EvClose h true :: tr' => remove Conn_eq_dec h (live_handles tr')
  | _ :: tr' => live_handles tr'
  end.

(** The manager holds every live handle: the singleton invariant. *)
Definition singleton {E} (st : State E) : Prop :=
  live_handles (trace st) =
  match _db_connection st with Some h => [h] | None => [] end.

(** ** A scripted environment

    Each call that reaches the environment takes the next reply of a
    script; a call made after the script has run out succeeds with an empty
    result. *)
Module Scripted.

Inductive Reply : Type :=
| Succeed (rs : ResultSet)
| Fail (e : Exn).

Definition Script := list Reply.

Definition next (s : Script) : Reply * Script :=
  match s with
  | [] => (Succeed (mkResultSet [] None), [])
  | r :: s' => (r, s')
  end.

Definition fault (s : Script) : option Exn * Script :=
  match next s with
  | (Succeed _, s') => (None, s')
  | (Fail e, s') => (Some e, s')
  end.

Definition answer (s : Script) : Outcome ResultSet * Script :=
  match next s with
  | (Succeed rs, s') => (Return rs, s')
  | (Fail e, s') => (Raise e, s')
  end.

(** Paths resolve against the working directory [/app]. *)
Definition resolve_app (p : str) : str :=
  if startswith p $"/" then p else $"/app/" ++ p.

#[export] Instance env : Env Script := {
  resolve := resolve_app;
  engine_connect s _ _ := fault s;
  engine_close s _ := fault s;
  engine_execute s _ _ _ := answer s;
  io_fault s _ _ := fault s
}.

(** A process that has not opened its database yet. *)
Definition start (script : Script) (files : FS) (path : str)
  : State Script :=
  mkState script files None path [] 0.

(** One database file, and a process started on it. *)
Definition db_file : FS := [($"/app/db.duckdb", $"duckdb")].

Definition fresh : State Script := start [] db_file $"db.duckdb".

Definition first_handle : Conn := mkConn 0 $"/app/db.duckdb".

(** A process whose first open will succeed, with [script] to follow. *)
Definition starting (script : Script) : State Script :=
  start (Succeed (mkResultSet [] None) :: script) db_file $"db.duckdb".

(** The same process once it holds [first_handle], with [script] still
    to come. *)
Definition serving (script : Script) : State Script :=
  snd (get_connection (starting script)).

(** A process configured with a path at which there is no file. *)
Definition misconfigured : State Script :=
  start [] db_file $"missing.duckdb".

Definition closed_error : Exn :=
  mkExn DuckDBError $"Connection Error: Connection already closed!".

Definition syntax_error : Exn :=
  mkExn DuckDBError $"Parser Error: syntax error at or near SELEC".

Definition disk_full : Exn :=
  mkExn OSError $"[Errno 28] No space left on device".

Definition not_a_database : Exn :=
  mkExn DuckDBError $"IO Error: The file is not a valid DuckDB database file!".

Definition done : Reply := Succeed (mkResultSet [] None).

(** An upload of [upload.duckdb]. *)
Definition upload : Request :=
  mkRequest (Some (mkUploadFile $"upload.duckdb" $"scratch")).

Definition scratch_file : str := $"/app/temp_db/upload.duckdb".

Definition two_tables : ResultSet :=
  mkResultSet [[VText $"requests"]; [VText $"users"]]
              (Some [($"name", $"VARCHAR")]).

Definition nullable_no : ColumnInfo :=
  mkColumnInfo (VText $"id") (VText $"INTEGER") (VText $"NO").

Definition one_column : ResultSet :=
  mkResultSet [] (Some [($"id", $"INTEGER")]).

End Scripted.

(** * Properties *)

(** ** Strings *)

Lemma eqb_eq (a b : str) : eqb a b = true <-> a = b.
Proof.
  revert b. induction a as [|x a IH]; intros [|y b]; simpl;
    try (split; congruence).
  rewrite andb_true_iff, Ascii.eqb_eq, IH. split.
  - intros [-> ->]. reflexivity.
  - intros [= -> ->]. split; reflexivity.
Qed.

Lemma eqb_refl (a : str) : eqb a a = true.
Proof. apply eqb_eq. reflexivity. Qed.


(** Whitespace stripping. *)

Lemma lstrip_suffix (s : str) : exists p, s = p ++ lstrip s.
Proof.
  induction s as [|a s [p IH]]; simpl.
  - exists []. reflexivity.
  - destruct (is_space a).
    + exists (a :: p). simpl. rewrite <- IH. reflexivity.
    + exists []. reflexivity.
Qed.

Lemma lstrip_head (s : str) (c : ascii) (r : str) :
  lstrip s = c :: r -> is_space c = false.
Proof.
  induction s as [|a s IH]; simpl; [discriminate|].
  destruct (is_space a) eqn:Ha; [exact IH|].
  intros [= <- _]. exact Ha.
Qed.

Lemma lstrip_fixed (c : ascii) (r : str) :
  is_space c = false -> lstrip (c :: r) = c :: r.
Proof. intros Hc. simpl. rewrite Hc. reflexivity. Qed.

Lemma rstrip_snoc_space (s : str) (c : ascii) :
  is_space c = true -> rstrip (s ++ [c]) = rstrip s.
Proof.
  intros Hc. unfold rstrip. rewrite rev_app_distr. simpl. rewrite Hc.
  reflexivity.
Qed.

Lemma rstrip_snoc_fixed (s : str) (c : ascii) :
  is_space c = false -> rstrip (s ++ [c]) = s ++ [c].
Proof.
  intros Hc. unfold rstrip. rewrite rev_app_distr. simpl. rewrite Hc.
  simpl. rewrite rev_involutive. reflexivity.
Qed.

Lemma rstrip_last (s r : str) (c : ascii) :
  rstrip s = r ++ [c] -> is_space c = false.
Proof.
  unfold rstrip. intros Hr.
  apply (f_equal (@rev ascii)) in Hr.
  rewrite rev_involutive, rev_app_distr in Hr. simpl in Hr.
  eapply lstrip_head. exact Hr.
Qed.

Lemma strip_trimmed (s : str) : trimmed (strip s).
Proof.
  unfold strip. split.
  - intros c r. apply lstrip_head.
  - intros c r Hs.
    destruct (lstrip_suffix (rstrip s)) as [p Hp].
    rewrite Hs, app_assoc in Hp. eapply rstrip_last. exact Hp.
Qed.

Lemma strip_of_trimmed (s : str) : trimmed s -> strip s = s.
Proof.
  intros [Hhead Hlast]. unfold strip.
  assert (Hr : rstrip s = s).
  { destruct (rev s) as [|c r] eqn:Hrev.
    - apply (f_equal (@rev ascii)) in Hrev. rewrite rev_involutive in Hrev.
      subst s. reflexivity.
    - apply (f_equal (@rev ascii)) in Hrev. rewrite rev_involutive in Hrev.
      simpl in Hrev. subst s. apply rstrip_snoc_fixed.
      apply (Hlast c (rev r)). reflexivity. }
  rewrite Hr. destruct s as [|c r]; [reflexivity|].
  apply lstrip_fixed. apply (Hhead c r). reflexivity.
Qed.

(** Fences. *)

Lemma strip_fenced (m : str) :
  strip (fence ++ m ++ fence) = fence ++ m ++ fence.
Proof.
  apply strip_of_trimmed. split.
  - intros c r [= <- _]. reflexivity.
  - intros c r Hs.
    replace (fence ++ m ++ fence)
      with ((fence ++ m ++ $"``") ++ [ascii_of_nat 96]) in Hs
      by (rewrite <- !app_assoc; reflexivity).
    apply app_inj_tail in Hs. destruct Hs as [_ <-]. reflexivity.
Qed.

Lemma startswith_fence (r : str) : startswith (fence ++ r) fence = true.
Proof. reflexivity. Qed.

Lemma endswith_fence (m : str) : endswith (m ++ fence) fence = true.
Proof. unfold endswith. rewrite rev_app_distr. reflexivity. Qed.

Lemma slice_to_neg_fence (m : str) : slice_to_neg 3 (m ++ fence) = m.
Proof.
  unfold slice_to_neg. rewrite length_app.
  replace (List.length m + List.length fence - 3) with (List.length m + 0)
    by (simpl; lia).
  rewrite firstn_app_2. simpl. apply app_nil_r.
Qed.

Lemma find_app (c : ascii) (a r : str) :
  find c a = None -> find c (a ++ c :: r) = Some (List.length a).
Proof.
  induction a as [|x a IH]; simpl.
  - intros _. rewrite Ascii.eqb_refl. reflexivity.
  - destruct (Ascii.eqb x c); [discriminate|].
    destruct (find c a); [discriminate|]. intros _. rewrite IH; reflexivity.
Qed.

Lemma find_app_none (c : ascii) (a b : str) :
  find c a = None -> find c b = None -> find c (a ++ b) = None.
Proof.
  intros Ha Hb. induction a as [|x a IH]; simpl in *; [exact Hb|].
  destruct (Ascii.eqb x c); [discriminate|].
  destruct (find c a); [discriminate|]. rewrite IH; reflexivity.
Qed.

Lemma find_fence (r : str) :
  find newline (fence ++ r) = option_map (fun n => 3 + n) (find newline r).
Proof. simpl. destruct (find newline r); reflexivity. Qed.

Lemma skipn_line (tag rest : str) :
  skipn (S (S (S (List.length tag))) + 1) (fence ++ tag ++ newline :: rest)
  = rest.
Proof. simpl. induction tag as [|x tag IH]; simpl; auto. Qed.

(** Stripping a reply whose opening fence line ends at the first line
    break. *)
Lemma strip_code_fences_block (tag body : str) :
  find newline tag = None ->
  strip_code_fences (fence ++ tag ++ [newline] ++ body ++ fence)
  = strip body.
Proof.
  intros Htag. unfold strip_code_fences.
  replace (fence ++ tag ++ [newline] ++ body ++ fence)
    with (fence ++ (tag ++ [newline] ++ body) ++ fence)
    by (rewrite <- !app_assoc; reflexivity).
  rewrite strip_fenced, startswith_fence, find_fence.
  rewrite <- !app_assoc. simpl ([newline] ++ _).
  rewrite find_app by exact Htag. simpl option_map.
  unfold slice_from. rewrite skipn_line.
  rewrite endswith_fence, slice_to_neg_fence. reflexivity.
Qed.

(** Stripping a one-line reply with the fences on the same line. *)
Lemma strip_code_fences_inline (s : str) :
  find newline s = None ->
  strip_code_fences (fence ++ s ++ fence) = strip s.
Proof.
  intros Hs. unfold strip_code_fences.
  rewrite strip_fenced, startswith_fence, find_fence.
  rewrite find_app_none by (exact Hs || reflexivity). simpl option_map.
  cbv iota. change (slice_from 3 (fence ++ s ++ fence)) with (s ++ fence).
  rewrite endswith_fence, slice_to_neg_fence. reflexivity.
Qed.

Lemma strip_snoc_newline (s : str) : strip (s ++ [newline]) = strip s.
Proof. unfold strip. rewrite rstrip_snoc_space; reflexivity. Qed.

(** ** The connection manager *)

Ltac unfold_monad :=
  unfold bind, try_except, try_finally, ret, raise, print, read_conn,
    write_conn, read_DB_PATH, write_DB_PATH, path_exists, lift, log,
    with_oracle, with_fs in *.

Ltac unfold_goal :=
  unfold bind, try_except, try_finally, ret, raise, print, read_conn,
    write_conn, read_DB_PATH, write_DB_PATH, path_exists, lift, log,
    with_oracle, with_fs.

Ltac cbn_state := cbn [oracle fs _db_connection DB_PATH trace next_id].

Ltac unfold_ctl :=
  unfold bind, try_except, try_finally, ret, raise, print, read_conn,
    write_conn, read_DB_PATH, write_DB_PATH, path_exists, lift.

Ltac cbn_st :=
  cbn [oracle fs _db_connection DB_PATH trace next_id log with_oracle
       with_fs].

Ltac step_env :=
  match goal with
  | |- context [engine_connect ?o ?f ?p] =>
      let e := fresh "e" in let o' := fresh "o" in
      destruct (engine_connect o f p) as [[e|] o'] eqn:?
  | |- context [engine_close ?o ?c] =>
      let e := fresh "e" in let o' := fresh "o" in
      destruct (engine_close o c) as [[e|] o'] eqn:?
  | |- context [engine_execute ?o ?f ?c ?q] =>
      let e := fresh "e" in let o' := fresh "o" in
      destruct (engine_execute o f c q) as [[?|e] o'] eqn:?
  | |- context [io_fault ?o ?f ?op] =>
      let e := fresh "e" in let o' := fresh "o" in
      destruct (io_fault o f op) as [[e|] o'] eqn:?
  end.

(** Case analysis on the membership of an event in an explicit trace. *)
Ltac in_trace :=
  repeat match goal with
         | H : False |- _ => contradiction
         | H : _ \/ _ |- _ => destruct H as [H|H]
         | H : In _ _ |- _ => simpl in H
         | H : @eq Event _ _ |- _ =>
             first [discriminate H | inversion H; clear H; subst]
         | H : Some _ = Some _ |- _ => inversion H; clear H; subst
         end.

(** An event is in an explicit trace. *)
Ltac find_in := simpl; repeat first [left; reflexivity | right].

(** One fact about an explicit trace or state. *)
Ltac fact :=
  simpl; intros;
  first [ reflexivity | lia | discriminate | congruence
        | solve [in_trace; repeat first [eexists | split];
                 first [reflexivity | find_in]]
        | solve [eexists (mkExn FileNotFoundError _); reflexivity] ].

Section Manager.

Context {E : Type} `{Env E}.

(** With a handle in place [get_connection] returns it and touches
    nothing: no path check, no open, no log line. *)
Lemma get_connection_held (st : State E) (h : Conn) :
  _db_connection st = Some h -> get_connection st = (Return h, st).
Proof.
  intros Hc. unfold get_connection. unfold_monad. rewrite Hc. reflexivity.
Qed.

(** What one call to [get_connection] does, by cases. *)
Lemma get_connection_cases (st : State E) :
  match get_connection st with
  | (Return h, st') =>
      _db_connection st' = Some h /\ DB_PATH st' = DB_PATH st /\
      fs st' = fs st /\
      match _db_connection st with
      | Some c => h = c /\ st' = st
      | None =>
          h = mkConn (next_id st) (resolve (DB_PATH st)) /\
          fs_exists (resolve (DB_PATH st)) (fs st) = true /\
          trace st' =
            EvConnect (resolve (DB_PATH st)) (Some h)
            :: EvPrint ($"Opening new database connection to "
                         ++ resolve (DB_PATH st) ++ $" (singleton)")
            :: trace st
      end
  | (Raise e, st') =>
      _db_connection st = None /\ _db_connection st' = None /\
      DB_PATH st' = DB_PATH st /\ fs st' = fs st /\
      live_handles (trace st') = live_handles (trace st) /\
      count is_execute (trace st') = count is_execute (trace st)
  end.
Proof.
  unfold get_connection. unfold_monad. destruct st as [o f c p tr n]; simpl.
  destruct c as [c|]; simpl; [auto|].
  destruct (fs_exists (resolve p) f) eqn:Hex; simpl.
  - unfold duckdb_connect; simpl. step_env; simpl; auto 10.
  - auto 10.
Qed.

Lemma get_connection_singleton (st : State E) :
  singleton st -> singleton (snd (get_connection st)).
Proof.
  unfold singleton. intros Hs.
  pose proof (get_connection_cases st) as Hc.
  destruct (get_connection st) as [[h|e] st']; simpl.
  - destruct Hc as (Hh & _ & _ & Hc). rewrite Hh.
    destruct (_db_connection st) as [c|].
    + destruct Hc as [-> ->]. exact Hs.
    + destruct Hc as (_ & _ & ->). simpl. rewrite Hs. reflexivity.
  - destruct Hc as (Hn & Hn' & _ & _ & Hl & _).
    rewrite Hl, Hs, Hn, Hn'. reflexivity.
Qed.

Lemma get_calls_singleton (n : nat) :
  forall st : State E, singleton st -> singleton (snd (get_calls n st)).
Proof.
  induction n as [|n IH]; intros st Hs; simpl; [exact Hs|].
  pose proof (get_connection_singleton Hs) as H1.
  destruct (get_connection st) as [r st1]. simpl in H1.
  specialize (IH st1 H1). destruct (get_calls n st1) as [rs st2].
  exact IH.
Qed.

Lemma get_calls_held (n : nat) (st : State E) (h : Conn) :
  _db_connection st = Some h ->
  get_calls n st = (repeat (Return h) n, st).
Proof.
  intros Hc. induction n as [|n IH]; simpl; [reflexivity|].
  rewrite (get_connection_held st Hc), IH. reflexivity.
Qed.

Lemma singleton_at_most_one (st : State E) :
  singleton st -> List.length (live_handles (trace st)) <= 1.
Proof.
  unfold singleton. intros ->. destruct (_db_connection st); simpl; lia.
Qed.

Lemma frame_nil (tr : list Event) : tr = [] ++ tr.
Proof. reflexivity. Qed.

Lemma frame_cons (ev : Event) (tr' evs tr : list Event) :
  tr' = evs ++ tr -> ev :: tr' = (ev :: evs) ++ tr.
Proof. intros ->. reflexivity. Qed.

(** What one call to [reset_connection] does: it returns a boolean, and
    the events [evs] it adds to the trace are a close of the handle it
    found, one open at the resolved configured path, and the probe on the
    handle that open returned. *)
Lemma reset_connection_cases (st : State E) :
  exists b st' evs,
    reset_connection st = (Return b, st') /\
    trace st' = evs ++ trace st /\
    DB_PATH st' = DB_PATH st /\ fs st' = fs st /\
    (forall h0, _db_connection st = Some h0 ->
                exists ok, In (EvClose h0 ok) evs) /\
    (exists r, In (EvConnect (resolve (DB_PATH st)) r) evs) /\
    (forall p h, In (EvConnect p (Some h)) evs ->
                 exists ok, In (EvExecute h $"SELECT 1" ok) evs) /\
    (forall h, In (EvExecute h $"SELECT 1" false) evs -> b = false) /\
    (if b then
       exists h, _db_connection st' = Some h /\
                 conn_path h = resolve (DB_PATH st) /\
                 In (EvConnect (resolve (DB_PATH st)) (Some h)) evs /\
                 In (EvExecute h $"SELECT 1" true) evs
     else _db_connection st' = None) /\
    resets evs = 1 /\ retries evs = 0 /\ count is_connect evs = 1 /\
    count is_execute evs <= 1 /\
    reset_successes evs = (if b then 1 else 0).
Proof.
  unfold reset_connection. unfold_monad.
  destruct st as [o f c p tr n]; simpl.
  destruct c as [c|]; simpl; unfold conn_close, duckdb_connect, conn_execute;
    simpl; repeat (step_env; simpl);
    do 3 eexists; (split; [reflexivity|]);
    (split; [repeat apply frame_cons; apply frame_nil|]);
    simpl; unfold resets, retries, reset_successes, count; simpl;
    repeat apply conj; fact.
Qed.


(** What one call to [reset_with_new_db] does: it returns a pair, with
    [DB_PATH] already set to the new path whatever the result. *)
Lemma reset_with_new_db_cases (new_db_path : str) (st : State E) :
  exists ok msg st' evs,
    reset_with_new_db new_db_path st = (Return (ok, msg), st') /\
    trace st' = evs ++ trace st /\
    DB_PATH st' = new_db_path /\ fs st' = fs st /\
    (forall h0, _db_connection st = Some h0 ->
                exists b, In (EvClose h0 b) evs) /\
    (forall p h, In (EvConnect p (Some h)) evs ->
                 p = resolve new_db_path /\
                 exists b, In (EvExecute h $"SELECT 1" b) evs) /\
    (forall h, In (EvExecute h $"SELECT 1" false) evs -> ok = false) /\
    (fs_exists (resolve new_db_path) (fs st) = false ->
     ok = false /\ count is_connect evs = 0) /\
    (if ok then
       msg = None /\
       exists h, _db_connection st' = Some h /\
                 conn_path h = resolve new_db_path /\
                 In (EvConnect (resolve new_db_path) (Some h)) evs /\
                 In (EvExecute h $"SELECT 1" true) evs
     else
       _db_connection st' = None /\
       exists e, msg = Some ($"Failed to change database: " ++ str_of_exn e)).
Proof.
  unfold reset_with_new_db. unfold_monad.
  destruct st as [o f c p tr n]; simpl.
  destruct c as [c|]; simpl; unfold conn_close, duckdb_connect, conn_execute;
    simpl; repeat (step_env; simpl);
    destruct (fs_exists (resolve new_db_path) f) eqn:Hex; simpl;
    repeat (step_env; simpl);
    do 4 eexists; (split; [reflexivity|]);
    (split; [repeat apply frame_cons; apply frame_nil|]);
    simpl; unfold count; simpl;
    repeat apply conj; fact.
Qed.




(** A failure to obtain the connection leaves [get_table_names],
    [get_table_schema] and [execute_query] through the call that sits
    before their [try]. *)
Lemma get_connection_failure_escapes (st st' : State E) (e : Exn) :
  get_connection st = (Raise e, st') ->
  get_table_names st = (Raise e, st') /\
  (forall t, get_table_schema t st = (Raise e, st')) /\
  (forall q, execute_query q st = (Raise e, st')).
Proof.
  intros Hg. unfold get_table_names, get_table_schema, execute_query, bind.
  rewrite Hg. auto.
Qed.

(** On a held handle whose statement raises, the introspection functions
    log the error and return the empty list. *)
Lemma get_table_names_broken (st : State E) (h : Conn) (e : Exn) (o : E) :
  _db_connection st = Some h ->
  engine_execute (oracle st) (fs st) h $"SHOW TABLES" = (Raise e, o) ->
  exists st',
    get_table_names st = (Return [], st') /\
    _db_connection st' = Some h /\
    trace st' =
      EvPrint ($"Error fetching table names: " ++ str_of_exn e)
      :: EvExecute h $"SHOW TABLES" false :: trace st.
Proof.
  intros Hc Hx. unfold get_table_names, bind at 1.
  rewrite (get_connection_held st Hc). unfold_monad. unfold conn_execute.
  rewrite Hx. simpl. eexists. repeat split. exact Hc.
Qed.


Lemma count_app (f : Event -> bool) (l1 l2 : list Event) :
  count f (l1 ++ l2) = count f l1 + count f l2.
Proof. unfold count. rewrite filter_app, length_app. reflexivity. Qed.

Lemma count_cons (f : Event -> bool) (ev : Event) (l : list Event) :
  count f (ev :: l) = (if f ev then 1 else 0) + count f l.
Proof. unfold count. simpl. destruct (f ev); reflexivity. Qed.

Lemma count_In (f : Event -> bool) (ev : Event) (l : list Event) :
  In ev l -> f ev = true -> 1 <= count f l.
Proof.
  intros Hin Hf. induction l as [|x l IH]; [contradiction|].
  rewrite count_cons. destruct Hin as [->|Hin].
  - rewrite Hf. lia.
  - specialize (IH Hin). lia.
Qed.

(** What [execute_query] does after its first execution has raised [e]:
    [evs] are the events from the first execution on. *)
Lemma execute_query_failure (query : str) (st st1 : State E) (conn : Conn)
      (e : Exn) (o : E) :
  get_connection st = (Return conn, st1) ->
  engine_execute (oracle st1) (fs st1) conn query = (Raise e, o) ->
  exists r st' evs,
    execute_query query st = (Return r, st') /\
    trace st' = evs ++ trace st1 /\
    if connection_issue e then
      resets evs = 1 /\
      ((reset_successes evs = 1 /\
        retries evs = 1 /\ count is_execute evs = 3 /\
        (exists h, _db_connection st' = Some h) /\
        (qr_error r = None \/
         exists e2, r = mkQueryResult
                          (Some ($"Query failed after connection reset: "
                                  ++ str_of_exn e2)) [] []))
       \/
       (reset_successes evs = 0 /\
        retries evs = 0 /\ count is_execute evs <= 2 /\
        _db_connection st' = None /\
        r = mkQueryResult (Some (str_of_exn e)) [] []))
    else
      resets evs = 0 /\ retries evs = 0 /\ count is_execute evs = 1 /\
      count is_connect evs = 0 /\
      r = mkQueryResult (Some (str_of_exn e)) [] [].
Proof.
  intros Hg Hx. unfold execute_query, bind at 1. rewrite Hg.
  unfold try_except at 1. unfold bind at 1. unfold print at 1.
  unfold bind at 1. unfold conn_execute at 1. cbn [log with_oracle oracle fs].
  rewrite Hx. unfold bind at 1, print at 1.
  destruct (connection_issue e).
  - unfold bind at 1, print at 1. unfold bind at 1.
    match goal with |- context [reset_connection ?s] =>
      set (s2 := s);
      assert (Hs2 : exists pre,
                 trace s2 = pre ++ trace st1 /\
                 count is_execute pre = 1 /\ resets pre = 0 /\
                 retries pre = 0 /\ reset_successes pre = 0)
        by (eexists [_; _; _; _]; repeat split);
      clearbody s2
    end.
    destruct Hs2 as (pre & Hs2 & Hx2 & Hp1 & Hp2 & Hp3).
    destruct (reset_connection_cases s2)
      as (b & st3 & evs & Hr & Htr & _ & _ & _ & _ & _ & _ & Hb & Hres
          & Hret & _ & Hex & Hok).
    rewrite Hr. rewrite Hs2 in Htr. unfold resets, retries, reset_successes in *. destruct b.
    + destruct Hb as (h & Hh & _ & _ & Hprobe).
      pose proof (count_In is_execute _ _ Hprobe eq_refl) as Hex1.
      unfold try_except at 1, bind at 1.
      rewrite (get_connection_held st3 Hh).
      unfold bind at 1, print at 1, bind at 1, conn_execute at 1.
      cbn [log with_oracle oracle fs].
      destruct (engine_execute (oracle st3) (fs st3) h query)
        as [[rs|e2] o2]; unfold_goal; cbn_state;
        rewrite Htr;
        do 2 eexists;
        match goal with
        | |- context [?a :: ?b :: ?c :: evs ++ _] =>
            exists ([a; b; c] ++ evs ++ pre)
        end;
        (split; [reflexivity|]);
        (split; [simpl; rewrite <- !app_assoc; reflexivity|]);
        rewrite !count_app, Hres, Hret, Hx2, Hp1, Hp2, Hp3, Hok;
        (split; [reflexivity|]);
        left;
        (split; [reflexivity|]);
        (split; [reflexivity|]);
        (split; [unfold count in *; simpl; lia|]);
        (split; [eexists; exact Hh|]);
        [left; reflexivity | right; eexists; reflexivity].
    + unfold_goal. cbn_state.
      do 2 eexists. exists (evs ++ pre).
      split; [reflexivity|].
      split; [rewrite Htr, app_assoc; reflexivity|].
      rewrite !count_app, Hres, Hret, Hx2, Hp1, Hp2, Hp3, Hok.
      split; [reflexivity|].
      right.
      split; [reflexivity|].
      split; [reflexivity|].
      split; [lia|].
      split; [exact Hb | reflexivity].
  - unfold_goal. cbn_state. do 2 eexists.
    match goal with
    | |- context [?x :: ?y :: ?z :: trace st1] =>
        exists [x; y; z]
    end.
    repeat split.
Qed.

(** [change_database_endpoint] answers every request: its handler catches
    whatever the body raises. *)
Lemma change_database_endpoint_returns (request : Request) (st : State E) :
  exists r st', change_database_endpoint request st = (Return r, st').
Proof.
  unfold change_database_endpoint, try_except.
  match goal with |- context [match ?b with _ => _ end] =>
    destruct b as [[r|e] st1]
  end.
  - eauto.
  - unfold_goal. eauto.
Qed.

Lemma fs_exists_remove (p : str) (f : FS) : fs_exists p (fs_remove p f) = false.
Proof.
  unfold fs_exists. induction f as [|[q c] f IH]; simpl; [reflexivity|].
  destruct (str_eq_dec q p) as [Heq|Hne]; [exact IH|].
  simpl. destruct (str_eq_dec q p); [contradiction | exact IH].
Qed.

(** The cleanup of [change_database_endpoint]: when it answers that the
    connection to the uploaded file failed, the file is gone. *)
Lemma upload_refused_database_is_removed (file : UploadFile)
      (st st' : State E) (r : SwapResponse) :
  change_database_endpoint (mkRequest (Some file)) st = (Return r, st') ->
  startswith (message r) $"Failed to connect: " = true ->
  success r = false /\
  fs_exists (resolve (temp_path (filename file))) (fs st') = false.
Proof.
  unfold change_database_endpoint. unfold try_except at 1.
  cbn [form_db_file].
  destruct (eqb (filename file) []);
    [unfold_ctl; intros [= <- <-]; discriminate|].
  destruct (negb (endswith (filename file) $".duckdb"
                  || endswith (filename file) $".db"));
    [unfold_ctl; intros [= <- <-]; discriminate|].
  unfold bind at 1, io at 1. step_env;
    [unfold_ctl; intros [= <- <-]; discriminate|].
  unfold bind at 1, io at 1. cbn_st. step_env;
    [unfold_ctl; intros [= <- <-]; discriminate|].
  unfold bind at 1, io at 1. cbn_st. step_env;
    [unfold_ctl; intros [= <- <-]; discriminate|].
  unfold bind at 1.
  match goal with |- context [reset_with_new_db ?p ?s] =>
    destruct (reset_with_new_db_cases p s)
      as (ok & msg & st3 & evs & Hr & _ & _ & Hfs & _);
    rewrite Hr
  end.
  destruct ok; [unfold_ctl; intros [= <- <-]; discriminate|].
  unfold bind at 1, path_exists at 1.
  destruct (fs_exists (resolve (temp_path (filename file))) (fs st3)) eqn:Hex.
  - unfold bind at 1, io at 1. step_env;
      [unfold_ctl; intros [= <- <-]; discriminate|].
    unfold_ctl. cbn_st. intros [= <- <-] _. split; [reflexivity|].
    cbn_st. apply fs_exists_remove.
  - unfold_ctl. intros [= <- <-] _. split; [reflexivity|]. exact Hex.
Qed.

(** The result of [reset_connection] is decided by the open and the
    probe: [o0] is the environment after the close of the handle found. *)
Lemma reset_connection_decided (st : State E) :
  exists b st' evs,
    reset_connection st = (Return b, st') /\
    trace st' = evs ++ trace st /\
    (forall h, In (EvExecute h $"SELECT 1" true) evs -> b = true) /\
    (b = false ->
     In (EvConnect (resolve (DB_PATH st)) None) evs \/
     exists h, In (EvExecute h $"SELECT 1" false) evs) /\
    (forall o1 rs o2,
        engine_connect
          match _db_connection st with
          | Some h0 => snd (engine_close (oracle st) h0)
          | None => oracle st
          end (fs st) (resolve (DB_PATH st)) = (None, o1) ->
        engine_execute o1 (fs st)
          (mkConn (next_id st) (resolve (DB_PATH st))) $"SELECT 1"
          = (Return rs, o2) ->
        b = true /\
        _db_connection st'
        = Some (mkConn (next_id st) (resolve (DB_PATH st)))).
Proof.
  unfold reset_connection. unfold_monad.
  destruct st as [o f c p tr n]; simpl.
  destruct c as [c|]; simpl; unfold conn_close, duckdb_connect, conn_execute;
    simpl; repeat (step_env; simpl);
    do 3 eexists; (split; [reflexivity|]);
    (split; [repeat apply frame_cons; apply frame_nil|]);
    simpl; repeat apply conj;
    try fact;
    try (intros _; solve [left; find_in | right; eexists; find_in]);
    try (intros o1' rs' o2' Hco Hpr;
         repeat match goal with
                | Heq : ?x = _, H : context [?x] |- _ => rewrite Heq in H
                end;
         simpl in *; split; congruence).
Qed.

End Manager.

(** ** Claims *)

Section Claims.

Context {E : Type} `{Env E}.

(** C5 (singleton).  From a state in which the manager holds every live
    handle, any number of [get_connection] calls leaves at most one handle
    open; and once a call has returned a handle [h], every further call
    returns the same [h] and leaves the whole state as it is (no path
    check, no second open, nothing logged), [h] being bound to the
    resolved configured path when that call opened it. *)
Theorem singleton_get_connection (st : State E) :
  singleton st ->
  (forall m,
      singleton (snd (get_calls m st)) /\
      List.length (live_handles (trace (snd (get_calls m st)))) <= 1) /\
  (forall h st1,
      get_connection st = (Return h, st1) ->
      live_handles (trace st1) = [h] /\
      (_db_connection st = None -> conn_path h = resolve (DB_PATH st1)) /\
      forall n, get_calls n st1 = (repeat (Return h) n, st1)).
Proof.
  intros Hs. split.
  - intros m. pose proof (get_calls_singleton m Hs) as Hm.
    split; [exact Hm | apply singleton_at_most_one, Hm].
  - intros h st1 Hg.
    pose proof (get_connection_singleton Hs) as H1.
    pose proof (get_connection_cases st) as Hc.
    rewrite Hg in H1, Hc. simpl in H1.
    destruct Hc as (Hh & Hp & _ & Hc).
    repeat split.
    + unfold singleton in H1. rewrite H1, Hh. reflexivity.
    + intros Hn. rewrite Hn in Hc. destruct Hc as (-> & _).
      rewrite Hp. reflexivity.
    + intros n. apply get_calls_held, Hh.
Qed.



(** C3 (as the code has it).  When obtaining the connection raises,
    [execute_query] raises the same exception to its caller, in the state
    [get_connection] left: the call sits before the [try]. *)
Theorem execute_query_connection_failure (query : str) (st st' : State E)
        (e : Exn) :
  get_connection st = (Raise e, st') ->
  execute_query query st = (Raise e, st').
Proof. intros Hg. apply (get_connection_failure_escapes st Hg). Qed.


(** C6 ([reset_connection]).  From any state [reset_connection] returns a
    boolean and never raises.  The events it adds are: a close of the
    handle it found, if any; an open at the resolved configured path; the
    probe [SELECT 1] on the handle that open returned.  It returns [True]
    holding that handle after a successful probe, and otherwise [False]
    holding no handle.  [DB_PATH] is unchanged.  The result is decided by
    the open and the probe: a successful probe makes it [True], [False]
    means that the open or the probe failed, and when the engine, after
    the close, opens the file and runs the probe, the result is [True]
    with the new handle in place. *)
Theorem reset_connection_contract (st : State E) :
  exists b st' evs,
    reset_connection st = (Return b, st') /\
    trace st' = evs ++ trace st /\
    DB_PATH st' = DB_PATH st /\
    (forall h0, _db_connection st = Some h0 ->
                exists ok, In (EvClose h0 ok) evs) /\
    (exists r, In (EvConnect (resolve (DB_PATH st)) r) evs) /\
    (forall p h, In (EvConnect p (Some h)) evs ->
                 exists ok, In (EvExecute h $"SELECT 1" ok) evs) /\
    (if b then
       exists h, _db_connection st' = Some h /\
                 conn_path h = resolve (DB_PATH st) /\
                 In (EvConnect (resolve (DB_PATH st)) (Some h)) evs /\
                 In (EvExecute h $"SELECT 1" true) evs
     else _db_connection st' = None) /\
    (forall h, In (EvExecute h $"SELECT 1" true) evs -> b = true) /\
    (b = false ->
     In (EvConnect (resolve (DB_PATH st)) None) evs \/
     exists h, In (EvExecute h $"SELECT 1" false) evs) /\
    (forall o1 rs o2,
        engine_connect
          match _db_connection st with
          | Some h0 => snd (engine_close (oracle st) h0)
          | None => oracle st
          end (fs st) (resolve (DB_PATH st)) = (None, o1) ->
        engine_execute o1 (fs st)
          (mkConn (next_id st) (resolve (DB_PATH st))) $"SELECT 1"
          = (Return rs, o2) ->
        b = true /\
        _db_connection st'
        = Some (mkConn (next_id st) (resolve (DB_PATH st)))).
Proof.
  destruct (reset_connection_cases st)
    as (b & st' & evs & Hr & Htr & Hp & _ & Hcl & Hco & Hpr & _ & Hb & _).
  destruct (reset_connection_decided st)
    as (b2 & st2 & evs2 & Hr2 & Htr2 & Htrue & Hfalse & Hdec).
  rewrite Hr in Hr2. injection Hr2 as <- <-.
  rewrite Htr in Htr2. apply app_inv_tail in Htr2. subst evs2.
  exists b, st', evs. repeat split; auto; apply (Hdec o1 rs o2); assumption.
Qed.

(** C9 (result shaping).  When the connection was obtained and the
    statement ran and produced no rows, [execute_query] returns the column
    names of the result metadata (none when there is no metadata), empty
    data, and no error. *)
Theorem execute_query_zero_rows (query : str) (st st1 : State E)
        (conn : Conn) (d : option (list ColumnDesc)) (o : E) :
  get_connection st = (Return conn, st1) ->
  engine_execute (oracle st1) (fs st1) conn query
    = (Return (mkResultSet [] d), o) ->
  exists st',
    execute_query query st
      = (Return (mkQueryResult None (column_names d) []), st').
Proof.
  intros Hg Hx. unfold execute_query, bind at 1. rewrite Hg.
  unfold try_except at 1. unfold bind at 1. unfold print at 1.
  unfold bind at 1. unfold conn_execute at 1. cbn [log with_oracle oracle fs].
  rewrite Hx. unfold_goal. cbn [rs_rows rs_description]. eexists. reflexivity.
Qed.


(** C7 (code-fence stripping, as the code has it).  Let the opening fence
    be followed by a tag without line break (possibly empty) and a line
    break, then the SQL [s], then the closing fence, directly or after a
    line break; or let a one-line [s] stand between the fences on one line.
    Then the stripped text is [s] without its leading and trailing
    whitespace: it is trimmed, and it is [s] itself when [s] is trimmed. *)
Theorem strip_code_fences_round_trip (tag s : str) :
  find newline tag = None ->
  trimmed (strip s) /\
  (trimmed s -> strip s = s) /\
  strip_code_fences (fence ++ tag ++ [newline] ++ s ++ [newline] ++ fence)
    = strip s /\
  strip_code_fences (fence ++ tag ++ [newline] ++ s ++ fence) = strip s /\
  (find newline s = None ->
   strip_code_fences (fence ++ s ++ fence) = strip s).
Proof.
  intros Htag.
  split; [apply strip_trimmed|].
  split; [apply strip_of_trimmed|].
  split; [|split].
  - replace (fence ++ tag ++ [newline] ++ s ++ [newline] ++ fence)
      with (fence ++ tag ++ [newline] ++ (s ++ [newline]) ++ fence)
      by (rewrite <- !app_assoc; reflexivity).
    rewrite strip_code_fences_block by exact Htag.
    apply strip_snoc_newline.
  - apply strip_code_fences_block. exact Htag.
  - apply strip_code_fences_inline.
Qed.

(** An upload whose name ends in neither [.duckdb] nor [.db] is refused
    with the state untouched: no file operation, no change to the file
    system or the connection. *)
Lemma upload_rejected_before_persist (file : UploadFile) (st : State E) :
  endswith (filename file) $".duckdb" || endswith (filename file) $".db"
    = false ->
  exists r,
    change_database_endpoint (mkRequest (Some file)) st = (Return r, st) /\
    success r = false.
Proof.
  intros Hext. unfold change_database_endpoint. unfold_goal.
  cbn [form_db_file]. destruct (eqb (filename file) []).
  - eexists. split; reflexivity.
  - rewrite Hext. eexists. split; reflexivity.
Qed.

End Claims.

(** ** Further properties *)

(** *** Text helpers *)

Lemma startswith_app (p r : str) : startswith (p ++ r) p = true.
Proof.
  induction p as [|a p IH]; simpl; [reflexivity|].
  rewrite Ascii.eqb_refl. exact IH.
Qed.

Lemma contains_app (needle a b : str) :
  contains needle (a ++ needle ++ b) = true.
Proof.
  induction a as [|x a IH]; simpl.
  - destruct (needle ++ b) eqn:Hnb; simpl.
    + destruct needle; [reflexivity | discriminate].
    + rewrite <- Hnb, startswith_app. reflexivity.
  - rewrite IH. apply orb_true_r.
Qed.

Lemma firstn_firstn_min (n : nat) (s : str) :
  firstn n (firstn n s) = firstn n s.
Proof. rewrite firstn_firstn. f_equal. lia. Qed.

Lemma strip_idempotent (s : str) : strip (strip s) = strip s.
Proof. apply strip_of_trimmed, strip_trimmed. Qed.

(** A string that starts with one character and ends with another one is
    the two of them around a body. *)
Lemma bracketed (x : str) (a b : ascii) :
  startswith x [a] = true -> endswith x [b] = true -> a <> b ->
  exists body, x = a :: body ++ [b].
Proof.
  intros Hs He Hab.
  destruct x as [|c x]; [discriminate|].
  simpl in Hs. rewrite andb_true_r in Hs. apply Ascii.eqb_eq in Hs. subst c.
  unfold endswith in He.
  destruct (rev (a :: x)) as [|d r] eqn:Hrev; [discriminate|].
  simpl in He. rewrite andb_true_r in He. apply Ascii.eqb_eq in He. subst d.
  apply (f_equal (@rev ascii)) in Hrev. rewrite rev_involutive in Hrev.
  simpl in Hrev. destruct (rev r) as [|c r'] eqn:Hr.
  - simpl in Hrev. congruence.
  - simpl in Hrev. injection Hrev as _ ->. exists r'. reflexivity.
Qed.

Section Helpers.

(** X1.  [truncate_text] keeps a text of at most [max_length] characters
    as it is, and otherwise returns [max_length + 3] characters: the first
    [max_length] of the text and three dots.  Either way the result agrees
    with the text on the first [max_length] characters and has at most
    [max_length + 3]. *)
Theorem truncate_text_length (text : str) (max_length : nat) :
  (List.length text <= max_length -> truncate_text text max_length = text) /\
  (max_length < List.length text ->
   List.length (truncate_text text max_length) = max_length + 3) /\
  List.length (truncate_text text max_length) <= max_length + 3 /\
  slice_to max_length (truncate_text text max_length)
  = slice_to max_length text.
Proof.
  unfold truncate_text, slice_to.
  destruct (Nat.leb_spec (List.length text) max_length) as [Hle|Hgt].
  - split; [reflexivity|]. split; [lia|]. split; [lia | reflexivity].
  - assert (Hl : List.length (firstn max_length text ++ $"...")
                 = max_length + 3).
    { rewrite length_app, length_firstn. simpl. lia. }
    split; [lia|]. split; [intros _; exact Hl|]. split; [lia|].
    rewrite firstn_app, length_firstn.
    replace (max_length - Nat.min max_length (List.length text)) with 0
      by lia.
    simpl. rewrite app_nil_r. apply firstn_firstn_min.
Qed.

(** X2.  Truncating twice is truncating once. *)
Theorem truncate_text_idempotent (text : str) (max_length : nat) :
  truncate_text (truncate_text text max_length) max_length
  = truncate_text text max_length.
Proof.
  destruct (truncate_text_length text max_length) as (Hid & Hlen & _ & Hpre).
  destruct (Nat.leb_spec (List.length text) max_length) as [Hle|Hgt].
  - rewrite (Hid Hle). exact (Hid Hle).
  - specialize (Hlen Hgt). unfold truncate_text at 1.
    destruct (Nat.leb_spec (List.length (truncate_text text max_length))
                           max_length) as [Hle'|_]; [lia|].
    rewrite Hpre. unfold truncate_text.
    destruct (Nat.leb_spec (List.length text) max_length); [lia|reflexivity].
Qed.

(** X3.  [is_json] answers [True] only for a text that, once trimmed, is
    an opening brace and a closing brace, or an opening and a closing
    bracket, around a body, and that [json.loads] accepts.  Numbers,
    quoted strings, [true], [false] and [null] are never JSON to it,
    whatever the parser says. *)
Theorem is_json_shape (json_loads : str -> option Exn) (value : Value) :
  is_json json_loads value = true ->
  exists s body,
    value = VText s /\
    (strip s = $"{" ++ body ++ $"}" \/ strip s = $"[" ++ body ++ $"]") /\
    json_loads (strip s) = None.
Proof.
  unfold is_json. destruct value as [|z|s|b]; try discriminate.
  cbv zeta.
  destruct (startswith (strip s) $"{" && endswith (strip s) $"}") eqn:Hbrace;
    [|destruct (startswith (strip s) $"[" && endswith (strip s) $"]")
        eqn:Hbracket; [|discriminate]];
    cbn [negb orb]; destruct (json_loads (strip s)) eqn:Hj;
    try discriminate; intros _.
  - apply andb_true_iff in Hbrace. destruct Hbrace as [Hs He].
    destruct (bracketed (strip s) Hs He) as [body Hb]; [cbv; discriminate|].
    exists s, body. split; [reflexivity|]. split; [left; exact Hb | exact Hj].
  - apply andb_true_iff in Hbracket. destruct Hbracket as [Hs He].
    destruct (bracketed (strip s) Hs He) as [body Hb]; [cbv; discriminate|].
    exists s, body. split; [reflexivity|]. split; [right; exact Hb | exact Hj].
Qed.

(** X4.  A reply that, once trimmed, does not start with a fence: if it
    does not end with one either, the SQL is the trimmed reply; if it ends
    with one, the SQL is what stands before that fence, trimmed.  In both
    cases the SQL is trimmed. *)
Theorem strip_code_fences_unfenced (reply : str) :
  startswith (strip reply) fence = false ->
  trimmed (strip_code_fences reply) /\
  (endswith (strip reply) fence = false ->
   strip_code_fences reply = strip reply) /\
  (forall body, strip reply = body ++ fence ->
                strip_code_fences reply = strip body).
Proof.
  intros Hstart. unfold strip_code_fences. rewrite Hstart.
  split; [apply strip_trimmed|]. split.
  - intros ->. apply strip_idempotent.
  - intros body ->. rewrite endswith_fence, slice_to_neg_fence. reflexivity.
Qed.

(** X5.  The connection-fault heuristic is a case-insensitive substring
    test: an error whose text holds, anywhere and in any letter case, the
    word [connection] or the word [database], is taken for a connection
    fault. *)
Theorem connection_issue_substring (e : Exn) (before word after : str) :
  str_of_exn e = before ++ word ++ after ->
  lower word = $"connection" \/ lower word = $"database" ->
  connection_issue e = true.
Proof.
  intros Hmsg Hword. unfold connection_issue. rewrite Hmsg.
  unfold lower in *. rewrite !map_app.
  destruct Hword as [-> | ->]; rewrite contains_app;
    [reflexivity | apply orb_true_r].
Qed.

End Helpers.

(** *** What the manager leaves alone *)

Section Frame.

Context {E : Type} `{Env E}.

Local Notation "'kept'" := (@keeps_path E _) (only parsing).

Lemma keeps_ret {A} (a : A) : kept (ret a).
Proof. intros st. reflexivity. Qed.

Lemma keeps_raise {A} (e : Exn) : kept (@raise E A e).
Proof. intros st. reflexivity. Qed.

Lemma keeps_lift {A} (o : Outcome A) : kept (@lift E A o).
Proof. intros st. reflexivity. Qed.

Lemma keeps_print (line : str) : kept (print line).
Proof. intros st. reflexivity. Qed.

Lemma keeps_read_conn : kept read_conn.
Proof. intros st. reflexivity. Qed.

Lemma keeps_write_conn (c : option Conn) : kept (write_conn c).
Proof. intros st. reflexivity. Qed.

Lemma keeps_read_DB_PATH : kept read_DB_PATH.
Proof. intros st. reflexivity. Qed.

Lemma keeps_path_exists (p : str) : kept (path_exists p).
Proof. intros st. reflexivity. Qed.

Lemma keeps_duckdb_connect (p : str) : kept (duckdb_connect p).
Proof.
  intros st. unfold duckdb_connect.
  destruct (engine_connect (oracle st) (fs st) p) as [[e|] o]; reflexivity.
Qed.

Lemma keeps_conn_close (c : Conn) : kept (conn_close c).
Proof.
  intros st. unfold conn_close.
  destruct (engine_close (oracle st) c) as [[e|] o]; reflexivity.
Qed.

Lemma keeps_conn_execute (c : Conn) (q : str) : kept (conn_execute c q).
Proof.
  intros st. unfold conn_execute.
  destruct (engine_execute (oracle st) (fs st) c q) as [[rs|e] o];
    reflexivity.
Qed.

Lemma keeps_bind {A B} (m : M E A) (k : A -> M E B) :
  kept m -> (forall a, kept (k a)) -> kept (bind m k).
Proof.
  intros Hm Hk st. unfold bind. specialize (Hm st).
  destruct (m st) as [[a|e] st1]; simpl in Hm.
  - rewrite (Hk a st1). exact Hm.
  - exact Hm.
Qed.

Lemma keeps_try_except {A} (m : M E A) (h : Exn -> M E A) :
  kept m -> (forall e, kept (h e)) -> kept (try_except m h).
Proof.
  intros Hm Hh st. unfold try_except. specialize (Hm st).
  destruct (m st) as [[a|e] st1]; simpl in Hm.
  - exact Hm.
  - rewrite (Hh e st1). exact Hm.
Qed.

Lemma keeps_try_finally {A} (m : M E A) (fin : M E unit) :
  kept m -> kept fin -> kept (try_finally m fin).
Proof.
  intros Hm Hf st. unfold try_finally. specialize (Hm st).
  destruct (m st) as [r st1]. simpl in Hm. specialize (Hf st1).
  destruct (fin st1) as [[u|e] st2]; simpl in *; rewrite Hf; exact Hm.
Qed.

End Frame.

Create HintDb keeps.

#[local] Hint Resolve keeps_ret keeps_raise keeps_lift keeps_print
  keeps_read_conn keeps_write_conn keeps_read_DB_PATH keeps_path_exists
  keeps_duckdb_connect keeps_conn_close keeps_conn_execute : keeps.

(** Walks through a program built from the combinators. *)
Ltac keeps :=
  repeat first
    [ apply keeps_bind; [|intro]
    | apply keeps_try_except; [|intro]
    | apply keeps_try_finally
    | solve [auto with keeps]
    | match goal with
      | |- keeps_path (match ?x with _ => _ end) => destruct x
      | |- keeps_path (let _ := _ in _) => cbv zeta
      end ].

Section Composition.

Context {E : Type} `{Env E}.

Local Notation "'kept'" := (@keeps_path E _) (only parsing).

Lemma keeps_get_connection : kept get_connection.
Proof. unfold get_connection. keeps. Qed.

Lemma keeps_reset_connection : kept reset_connection.
Proof. unfold reset_connection. keeps. Qed.

Lemma keeps_get_table_names : kept get_table_names.
Proof. unfold get_table_names. pose proof keeps_get_connection. keeps. Qed.

Lemma keeps_get_table_schema (t : str) : kept (get_table_schema t).
Proof. unfold get_table_schema. pose proof keeps_get_connection. keeps. Qed.

Lemma keeps_execute_query (q : str) : kept (execute_query q).
Proof.
  unfold execute_query.
  pose proof keeps_get_connection. pose proof keeps_reset_connection.
  keeps.
Qed.

(** X6.  Only the swap changes the configured path: [get_connection],
    [reset_connection], [get_table_names], [get_table_schema] and
    [execute_query] leave [DB_PATH] as they found it, whether they return
    or raise. *)
Theorem only_swap_reconfigures (t q : str) :
  kept get_connection /\ kept reset_connection /\
  kept get_table_names /\ kept (get_table_schema t) /\
  kept (execute_query q).
Proof.
  split; [apply keeps_get_connection|].
  split; [apply keeps_reset_connection|].
  split; [apply keeps_get_table_names|].
  split; [apply keeps_get_table_schema | apply keeps_execute_query].
Qed.

(** What [execute_query] does when its first execution succeeds. *)
Lemma execute_query_success (query : str) (st st1 : State E) (conn : Conn)
      (rs : ResultSet) (o : E) :
  get_connection st = (Return conn, st1) ->
  engine_execute (oracle st1) (fs st1) conn query = (Return rs, o) ->
  exists st',
    execute_query query st
    = (Return (mkQueryResult None (column_names (rs_description rs))
                             (rs_rows rs)), st') /\
    _db_connection st' = _db_connection st1.
Proof.
  intros Hg Hx. unfold execute_query, bind at 1. rewrite Hg.
  unfold try_except at 1. unfold bind at 1. unfold print at 1.
  unfold bind at 1. unfold conn_execute at 1. cbn [log with_oracle oracle fs].
  rewrite Hx. unfold_ctl. eexists. split; reflexivity.
Qed.

(** With a handle in place the introspection functions return and keep
    the handle. *)
Lemma get_table_names_held (st : State E) (h : Conn) :
  _db_connection st = Some h ->
  exists names st',
    get_table_names st = (Return names, st') /\
    _db_connection st' = Some h /\
    match engine_execute (oracle st) (fs st) h $"SHOW TABLES" with
    | (Return rs, _) =>
        match first_fields (rs_rows rs) with
        | Return vs => names = vs
        | Raise _ => names = []
        end
    | (Raise _, _) => names = []
    end.
Proof.
  intros Hc. unfold get_table_names, bind at 1.
  rewrite (get_connection_held st Hc). unfold try_except, bind, conn_execute.
  destruct (engine_execute (oracle st) (fs st) h $"SHOW TABLES")
    as [[rs|e] o].
  - unfold lift. destruct (first_fields (rs_rows rs)) as [vs|e];
      unfold_ctl; cbn_st; do 2 eexists; repeat split; exact Hc.
  - unfold_ctl. cbn_st. do 2 eexists. repeat split. exact Hc.
Qed.

Lemma get_table_schema_held (t : str) (st : State E) (h : Conn) :
  _db_connection st = Some h ->
  exists schema st',
    get_table_schema t st = (Return schema, st') /\
    _db_connection st' = Some h /\
    match engine_execute (oracle st) (fs st) h ($"DESCRIBE " ++ t) with
    | (Return rs, _) => schema = rs_rows rs
    | (Raise _, _) => schema = []
    end.
Proof.
  intros Hc. unfold get_table_schema, bind at 1.
  rewrite (get_connection_held st Hc).
  unfold try_except, bind, conn_execute, print at 1.
  cbn [log with_oracle oracle fs].
  destruct (engine_execute (oracle st) (fs st) h ($"DESCRIBE " ++ t))
    as [[rs|e] o];
    unfold_ctl; cbn_st; do 2 eexists; repeat split; exact Hc.
Qed.

(** X7.  With a handle in place nothing escapes: [execute_query],
    [get_table_names] and [get_table_schema] return a value whatever the
    engine does. *)
Theorem held_handle_never_raises (st : State E) (h : Conn) (q t : str) :
  _db_connection st = Some h ->
  (exists r st', execute_query q st = (Return r, st')) /\
  (exists names st', get_table_names st = (Return names, st')) /\
  (exists schema st', get_table_schema t st = (Return schema, st')).
Proof.
  intros Hc. split; [|split].
  - pose proof (get_connection_held st Hc) as Hg.
    destruct (engine_execute (oracle st) (fs st) h q) as [[rs|e] o] eqn:Hx.
    + destruct (execute_query_success q st Hg Hx) as (st' & Hr & _). eauto.
    + destruct (execute_query_failure q st Hg Hx) as (r & st' & _ & Hr & _).
      eauto.
  - destruct (get_table_names_held st Hc) as (names & st' & Hr & _). eauto.
  - destruct (get_table_schema_held t st Hc) as (schema & st' & Hr & _).
    eauto.
Qed.

(** X8.  A result of [execute_query] never carries an error together with
    columns or rows. *)
Theorem execute_query_error_excludes_data (q : str) (st st' : State E)
        (r : QueryResult) :
  execute_query q st = (Return r, st') ->
  qr_error r <> None ->
  qr_columns r = [] /\ qr_data r = [].
Proof.
  intros Hr Herr.
  destruct (get_connection st) as [[conn|e] st1] eqn:Hg.
  - destruct (engine_execute (oracle st1) (fs st1) conn q) as [[rs|e] o]
      eqn:Hx.
    + destruct (execute_query_success q st Hg Hx) as (st2 & Hr2 & _).
      rewrite Hr in Hr2. injection Hr2 as -> _. contradiction Herr.
      reflexivity.
    + destruct (execute_query_failure q st Hg Hx)
        as (r2 & st2 & evs & Hr2 & _ & Hif).
      rewrite Hr in Hr2. injection Hr2 as <- _.
      destruct (connection_issue e).
      * destruct Hif as (_ & [(_ & _ & _ & _ & [Hok | [e2 ->]])
                             | (_ & _ & _ & _ & ->)]).
        -- contradiction.
        -- split; reflexivity.
        -- split; reflexivity.
      * destruct Hif as (_ & _ & _ & _ & ->). split; reflexivity.
  - rewrite (proj2 (proj2 (get_connection_failure_escapes st Hg)) q) in Hr.
    discriminate.
Qed.

(** X9.  After a reset or a swap that reports success, [get_connection]
    returns the handle that passed the probe, bound to the resolved path,
    and does nothing else. *)
Theorem get_connection_after_reset_or_swap (st : State E) (p : str) :
  (forall st1,
      reset_connection st = (Return true, st1) ->
      exists h,
        get_connection st1 = (Return h, st1) /\
        conn_path h = resolve (DB_PATH st) /\
        In (EvExecute h $"SELECT 1" true) (trace st1)) /\
  (forall msg st1,
      reset_with_new_db p st = (Return (true, msg), st1) ->
      exists h,
        get_connection st1 = (Return h, st1) /\
        conn_path h = resolve p /\
        In (EvExecute h $"SELECT 1" true) (trace st1)).
Proof.
  split.
  - intros st1 Hr.
    destruct (reset_connection_cases st)
      as (b & st' & evs & Hr' & Htr & _ & _ & _ & _ & _ & _ & Hb & _).
    rewrite Hr in Hr'. injection Hr' as <- <-.
    destruct Hb as (h & Hh & Hp & _ & Hprobe).
    exists h. split; [apply get_connection_held, Hh|].
    split; [exact Hp|]. rewrite Htr. apply in_or_app. left. exact Hprobe.
  - intros msg st1 Hr.
    destruct (reset_with_new_db_cases p st)
      as (ok & msg' & st' & evs & Hr' & Htr & _ & _ & _ & _ & _ & _ & Hb).
    rewrite Hr in Hr'. injection Hr' as <- <- <-.
    destruct Hb as (_ & h & Hh & Hp & _ & Hprobe).
    exists h. split; [apply get_connection_held, Hh|].
    split; [exact Hp|]. rewrite Htr. apply in_or_app. left. exact Hprobe.
Qed.

Lemma first_fields_nonempty (rows : list Row) :
  Forall (fun row => row <> []) rows ->
  first_fields rows = Return (map (hd VNull) rows).
Proof.
  induction 1 as [|row rows Hrow _ IH]; simpl; [reflexivity|].
  destruct row as [|v row]; [contradiction|]. rewrite IH. reflexivity.
Qed.

Lemma first_fields_empty_row (rows : list Row) :
  In [] rows ->
  first_fields rows = Raise (mkExn IndexError $"tuple index out of range").
Proof.
  induction rows as [|row rows IH]; simpl; [contradiction|].
  intros [->|Hin]; [reflexivity|].
  destruct row as [|v row]; [reflexivity|]. rewrite (IH Hin). reflexivity.
Qed.

(** X10.  [get_table_names] is all or nothing: when [SHOW TABLES] runs on
    the held handle, the result is the first field of every row, in order,
    if every row has one, and the empty list as soon as one row is
    empty. *)
Theorem get_table_names_all_or_nothing (st : State E) (h : Conn)
        (rs : ResultSet) (o : E) :
  _db_connection st = Some h ->
  engine_execute (oracle st) (fs st) h $"SHOW TABLES" = (Return rs, o) ->
  exists names st',
    get_table_names st = (Return names, st') /\
    (Forall (fun row => row <> []) (rs_rows rs) ->
     names = map (hd VNull) (rs_rows rs)) /\
    (In [] (rs_rows rs) -> names = []).
Proof.
  intros Hc Hx.
  destruct (get_table_names_held st Hc) as (names & st' & Hr & _ & Hn).
  rewrite Hx in Hn. exists names, st'. split; [exact Hr|]. split.
  - intros Hall. rewrite (first_fields_nonempty Hall) in Hn. exact Hn.
  - intros Hin. rewrite (first_fields_empty_row _ Hin) in Hn. exact Hn.
Qed.

Lemma fs_lookup_write (p c : str) (f : FS) :
  fs_lookup p (fs_write p c f) = Some c.
Proof.
  unfold fs_write. simpl. destruct (str_eq_dec p p); congruence.
Qed.

(** What a reported success of [change_database_endpoint] rests on, with
    the path of the upload as [temp_path] gives it. *)
Lemma upload_success_cases (request : Request)
      (st st' : State E) (r : SwapResponse) :
  change_database_endpoint request st = (Return r, st') ->
  success r = true ->
  exists file h,
    form_db_file request = Some file /\
    endswith (filename file) $".duckdb" || endswith (filename file) $".db"
      = true /\
    message r = $"Successfully connected to " ++ filename file /\
    DB_PATH st' = temp_path (filename file) /\
    fs_lookup (resolve (temp_path (filename file))) (fs st')
      = Some (content file) /\
    _db_connection st' = Some h /\
    conn_path h = resolve (temp_path (filename file)) /\
    In (EvExecute h $"SELECT 1" true) (trace st').
Proof.
  unfold change_database_endpoint. unfold try_except at 1.
  destruct request as [[file|]]; cbn [form_db_file];
    [|unfold_ctl; intros [= <- <-]; discriminate].
  destruct (eqb (filename file) []);
    [unfold_ctl; intros [= <- <-]; discriminate|].
  destruct (endswith (filename file) $".duckdb"
            || endswith (filename file) $".db") eqn:Hext; cbn [negb];
    [|unfold_ctl; intros [= <- <-]; discriminate].
  unfold bind at 1, io at 1. step_env;
    [unfold_ctl; intros [= <- <-]; discriminate|].
  unfold bind at 1, io at 1. cbn_st. step_env;
    [unfold_ctl; intros [= <- <-]; discriminate|].
  unfold bind at 1, io at 1. cbn_st. step_env;
    [unfold_ctl; intros [= <- <-]; discriminate|].
  unfold bind at 1.
  match goal with |- context [reset_with_new_db ?p ?s] =>
    destruct (reset_with_new_db_cases p s)
      as (ok & msg & st3 & evs & Hr & Htr & Hp & Hfs & _ & _ & _ & _ & Hok);
    rewrite Hr
  end.
  cbn [fs log with_oracle with_fs] in Hfs.
  destruct ok.
  - unfold_ctl. intros [= <- <-] _.
    destruct Hok as (_ & h & Hh & Hpath & _ & Hprobe).
    exists file, h. split; [reflexivity|]. split; [exact Hext|].
    split; [reflexivity|]. split; [exact Hp|].
    split; [rewrite Hfs; apply fs_lookup_write|].
    split; [exact Hh|]. split; [exact Hpath|].
    rewrite Htr. apply in_or_app. left. exact Hprobe.
  - unfold bind at 1, path_exists at 1.
    destruct (fs_exists (resolve (temp_path (filename file))) (fs st3)).
    + unfold bind at 1, io at 1. step_env;
        unfold_ctl; intros [= <- <-]; discriminate.
    + unfold_ctl. intros [= <- <-]. discriminate.
Qed.

Lemma temp_path_plain (name : str) :
  find "/"%char name = None -> temp_path name = $"temp_db/" ++ name.
Proof.
  destruct name as [|c name]; [reflexivity|].
  intros Hf. cbn [find] in Hf.
  destruct (Ascii.eqb c "/") eqn:Hc; [discriminate|].
  unfold temp_path.
  replace (startswith (c :: name) $"/") with false; [reflexivity|].
  symmetry. change (startswith (c :: name) $"/")
    with (Ascii.eqb "/" c && true).
  rewrite Ascii.eqb_sym, Hc. reflexivity.
Qed.

(** X11.  For an uploaded file whose name holds no [/],
    [change_database_endpoint] reports success only when the name has an
    accepted extension, the file is on disk at [temp_db/] followed by the
    name, with the uploaded content, [DB_PATH] is that path, and the
    manager holds a handle on it that has passed the probe. *)
Theorem upload_success_means_connected (request : Request)
        (file : UploadFile) (st st' : State E) (r : SwapResponse) :
  form_db_file request = Some file ->
  find "/"%char (filename file) = None ->
  change_database_endpoint request st = (Return r, st') ->
  success r = true ->
  exists h,
    endswith (filename file) $".duckdb" || endswith (filename file) $".db"
      = true /\
    message r = $"Successfully connected to " ++ filename file /\
    DB_PATH st' = $"temp_db/" ++ filename file /\
    fs_lookup (resolve ($"temp_db/" ++ filename file)) (fs st')
      = Some (content file) /\
    _db_connection st' = Some h /\
    conn_path h = resolve ($"temp_db/" ++ filename file) /\
    In (EvExecute h $"SELECT 1" true) (trace st').
Proof.
  intros Hfile Hplain Hr Hok.
  destruct (upload_success_cases request st Hr Hok)
    as (file' & h & Hf & Hext & Hmsg & Hp & Hfs & Hh & Hpath & Hprobe).
  rewrite Hfile in Hf. injection Hf as <-.
  rewrite (temp_path_plain _ Hplain) in Hp, Hfs, Hpath.
  exists h. repeat split; assumption.
Qed.

(** X17.  [change_database_endpoint] answers every request and never
    raises.  A request without the field [db_file], with an empty file
    name, or with a name that ends in neither [.duckdb] nor [.db], is
    refused with its own message and the state exactly as it was: nothing
    written, nothing closed, nothing logged. *)
Theorem change_database_endpoint_refusals (request : Request)
        (st : State E) :
  (exists r st', change_database_endpoint request st = (Return r, st')) /\
  (form_db_file request = None ->
   change_database_endpoint request st
   = (Return (mkSwapResponse false $"No file uploaded"), st)) /\
  (forall file,
      form_db_file request = Some file -> filename file = [] ->
      change_database_endpoint request st
      = (Return (mkSwapResponse false $"No file selected"), st)) /\
  (forall file,
      form_db_file request = Some file -> filename file <> [] ->
      endswith (filename file) $".duckdb" || endswith (filename file) $".db"
        = false ->
      change_database_endpoint request st
      = (Return (mkSwapResponse false
                   $"Invalid file type. Please upload a .duckdb or .db file"),
         st)).
Proof.
  split; [apply change_database_endpoint_returns|].
  unfold change_database_endpoint. unfold_ctl.
  split; [intros ->; reflexivity|]. split.
  - intros file -> ->. reflexivity.
  - intros file -> Hne Hext.
    destruct (eqb (filename file) []) eqn:Heq.
    + apply eqb_eq in Heq. contradiction.
    + rewrite Hext. reflexivity.
Qed.

End Composition.

(** *** The schema summary *)

Lemma value_eqb_refl (v : Value) : value_eqb v v = true.
Proof.
  destruct v as [|z|s|[|]]; simpl; auto using Z.eqb_refl, eqb_refl.
Qed.

Lemma dict_get_set_same {V} (k : Value) (v : V) (d : Dict V) :
  dict_get k (dict_set k v d) = Some v.
Proof.
  induction d as [|[k' v'] d IH]; simpl.
  - rewrite value_eqb_refl. reflexivity.
  - destruct (value_eqb k' k) eqn:Hk; simpl; rewrite Hk; auto.
Qed.

Lemma dict_get_set_defined {V} (k k2 : Value) (v : V) (d : Dict V) :
  dict_get k d <> None -> dict_get k (dict_set k2 v d) <> None.
Proof.
  induction d as [|[k' v'] d IH]; simpl; [congruence|].
  destruct (value_eqb k' k2); simpl; destruct (value_eqb k' k); auto;
    discriminate.
Qed.

Lemma dict_set_length {V} (k : Value) (v : V) (d : Dict V) :
  List.length (dict_set k v d) <= S (List.length d).
Proof.
  induction d as [|[k' v'] d IH]; simpl; [lia|].
  destruct (value_eqb k' k); simpl; lia.
Qed.

Section Schema.

Context {E : Type} `{Env E}.

(** With a handle in place the loop body returns an entry and keeps the
    handle. *)
Lemma table_entry_held (table : Value) (st : State E) (h : Conn) :
  _db_connection st = Some h ->
  exists entry st',
    table_entry table st = (Return entry, st') /\
    _db_connection st' = Some h.
Proof.
  intros Hc. unfold table_entry, try_except, bind at 1.
  destruct (get_table_schema_held (str_of_value table) st Hc)
    as (schema & st1 & Hr & Hc1 & _).
  rewrite Hr. unfold bind, lift.
  destruct (first_fields schema) as [vs|e];
    [destruct (column_infos schema) as [cs|e]|];
    unfold_ctl; cbn_st; do 2 eexists; split; try reflexivity; exact Hc1.
Qed.

Lemma schema_loop_held (tables : list Value) :
  forall (info : SchemaInfo) (st : State E) (h : Conn),
    _db_connection st = Some h ->
    exists info' st',
      schema_loop tables info st = (Return info', st') /\
      _db_connection st' = Some h /\
      (forall k, dict_get k info <> None -> dict_get k info' <> None) /\
      (forall t, In t tables -> dict_get t info' <> None) /\
      List.length info' <= List.length info + List.length tables.
Proof.
  induction tables as [|table rest IH]; intros info st h Hc; simpl.
  - exists info, st. split; [reflexivity|]. split; [exact Hc|].
    split; [auto|]. split; [intros t []|lia].
  - destruct (table_entry_held table st Hc) as (entry & st1 & Hr & Hc1).
    unfold bind. rewrite Hr.
    destruct (IH (dict_set table entry info) st1 h Hc1)
      as (info' & st' & Hl & Hc' & Hkeep & Hnew & Hlen).
    exists info', st'. split; [exact Hl|]. split; [exact Hc'|].
    split; [|split].
    + intros k Hk. apply Hkeep, dict_get_set_defined, Hk.
    + intros t [<-|Hin]; [|apply Hnew, Hin].
      apply Hkeep. rewrite dict_get_set_same. discriminate.
    + pose proof (dict_set_length table entry info). lia.
Qed.

(** X12.  With a handle in place [get_database_schema_info] returns,
    whatever the engine answers: the dictionary has an entry for every
    table name that [get_table_names] returned and no more entries than
    names, and the handle is still in place. *)
Theorem get_database_schema_info_held (st : State E) (h : Conn) :
  _db_connection st = Some h ->
  exists tables st1 info st',
    get_table_names st = (Return tables, st1) /\
    get_database_schema_info st = (Return info, st') /\
    _db_connection st' = Some h /\
    (forall t, In t tables -> dict_get t info <> None) /\
    List.length info <= List.length tables.
Proof.
  intros Hc.
  destruct (get_table_names_held st Hc) as (tables & st1 & Hr & Hc1 & _).
  destruct (schema_loop_held tables [] st1 Hc1)
    as (info & st' & Hl & Hc' & _ & Hnew & Hlen).
  exists tables, st1, info, st'. split; [exact Hr|].
  unfold get_database_schema_info, bind. rewrite Hr.
  split; [exact Hl|]. split; [exact Hc'|]. split; [exact Hnew | exact Hlen].
Qed.

(** X13.  On a held handle that cannot run [SHOW TABLES] the schema
    summary is silently empty: [get_database_schema_info] returns the
    empty dictionary, which [format_for_openai] renders as the empty
    text. *)
Theorem schema_summary_on_broken_handle (st : State E) (h : Conn) (e : Exn)
        (o : E) :
  _db_connection st = Some h ->
  engine_execute (oracle st) (fs st) h $"SHOW TABLES" = (Raise e, o) ->
  exists st',
    get_database_schema_info st = (Return [], st') /\
    format_for_openai [] = [].
Proof.
  intros Hc Hx.
  destruct (get_table_names_broken st Hc Hx) as (st' & Hr & _).
  exists st'. unfold get_database_schema_info, bind. rewrite Hr.
  split; reflexivity.
Qed.

(** When the connection cannot be obtained, the exception leaves
    [get_database_schema_info] through [get_table_names]. *)
Lemma get_database_schema_info_escapes (st st' : State E) (e : Exn) :
  get_connection st = (Raise e, st') ->
  get_database_schema_info st = (Raise e, st').
Proof.
  intros Hg. unfold get_database_schema_info, bind.
  rewrite (proj1 (get_connection_failure_escapes st Hg)). reflexivity.
Qed.

End Schema.

(** Lines of the summary. *)

Lemma filter_none {A} (f : A -> bool) (l : list A) :
  (forall x, In x l -> f x = false) -> filter f l = [].
Proof.
  induction l as [|x l IH]; simpl; intros Hf; [reflexivity|].
  rewrite (Hf x) by (left; reflexivity). apply IH. intros y Hy.
  apply Hf. right. exact Hy.
Qed.

Lemma format_table_lines (k : Value) (ti : TableInfo) :
  filter is_table_line (format_table k ti) = [$"TABLE: " ++ str_of_value k].
Proof.
  unfold format_table.
  set (header := [$"TABLE: " ++ str_of_value k; $"COLUMNS:"]).
  set (columns := map format_column _).
  match goal with |- context [columns ++ ?x] => set (samples := x) end.
  assert (Hh : filter is_table_line header = [$"TABLE: " ++ str_of_value k])
    by reflexivity.
  assert (Hc : filter is_table_line columns = []).
  { apply filter_none. intros x Hin. apply in_map_iff in Hin.
    destruct Hin as (c & <- & _). reflexivity. }
  assert (Hs : filter is_table_line samples = []).
  { apply filter_none. intros x. subst samples.
    destruct (ti_sample_data ti) as [[|row rows]|]; try contradiction.
    intros [<-|Hin]; [reflexivity|].
    apply in_map_iff in Hin. destruct Hin as ([i r] & <- & _). reflexivity. }
  rewrite !filter_app.
  etransitivity;
    [apply f_equal2; [exact Hh | apply f_equal2; [exact Hc | exact Hs]]|].
  reflexivity.
Qed.

(** X14.  In the text that [format_for_openai] joins, the lines that
    start with [TABLE: ] are one per entry of the dictionary, in its
    order, each with the name of its table: an entry that holds an error
    instead of columns is listed like the others, and no column, sample
    header or sample row is taken for a table. *)
Theorem formatted_text_table_lines (schema_info : SchemaInfo) :
  filter is_table_line (formatted_text schema_info)
  = map (fun kv => $"TABLE: " ++ str_of_value (fst kv)) schema_info.
Proof.
  unfold formatted_text.
  induction schema_info as [|[k ti] d IH]; [reflexivity|].
  cbn [flat_map fst snd map]. rewrite filter_app, IH.
  etransitivity; [apply f_equal2; [apply format_table_lines|reflexivity]|].
  reflexivity.
Qed.

Lemma endswith_app (a b : str) : endswith (a ++ b) b = true.
Proof. unfold endswith. rewrite rev_app_distr. apply startswith_app. Qed.

(** X15.  A column is written [NOT NULL] only when its nullable field is
    false in a condition ([None], [False], [0] or the empty text): any
    other field, every non-empty text included, writes [NULL]. *)
Theorem format_column_nullable (col : ColumnInfo) :
  (truthy (ci_nullable col) = true ->
   endswith (format_column col) $", NULL)" = true) /\
  (truthy (ci_nullable col) = false ->
   endswith (format_column col) $", NOT NULL)" = true) /\
  (forall s, ci_nullable col = VText s -> s <> [] ->
             endswith (format_column col) $", NULL)" = true).
Proof.
  assert (Hyes : truthy (ci_nullable col) = true ->
                 endswith (format_column col) $", NULL)" = true).
  { intros Ht. unfold format_column. rewrite Ht.
    replace ($"  - " ++ str_of_value (ci_name col) ++ $" ("
               ++ str_of_value (ci_type col) ++ $", " ++ $"NULL" ++ $")")
      with (($"  - " ++ str_of_value (ci_name col) ++ $" ("
               ++ str_of_value (ci_type col)) ++ $", NULL)")
      by (rewrite <- !app_assoc; reflexivity).
    apply endswith_app. }
  split; [exact Hyes|]. split.
  - intros Ht. unfold format_column. rewrite Ht.
    replace ($"  - " ++ str_of_value (ci_name col) ++ $" ("
               ++ str_of_value (ci_type col) ++ $", " ++ $"NOT NULL" ++ $")")
      with (($"  - " ++ str_of_value (ci_name col) ++ $" ("
               ++ str_of_value (ci_type col)) ++ $", NOT NULL)")
      by (rewrite <- !app_assoc; reflexivity).
    apply endswith_app.
  - intros s Hs Hne. apply Hyes. rewrite Hs. simpl.
    destruct s; [contradiction | reflexivity].
Qed.

(** *** Shutdown *)

Lemma fs_exists_rmtree (dir p : str) (f : FS) :
  startswith p (dir ++ $"/") = true ->
  fs_exists p (fs_rmtree dir f) = false.
Proof.
  intros Hp. unfold fs_exists.
  assert (Hl : fs_lookup p (fs_rmtree dir f) = None).
  { unfold fs_rmtree. induction f as [|[q c] f IH]; [reflexivity|].
    cbn [filter fst].
    destruct (startswith q (dir ++ $"/")) eqn:Hq; cbn [negb]; [exact IH|].
    cbn [fs_lookup].
    destruct (str_eq_dec q p) as [->|_]; [congruence | exact IH]. }
  rewrite Hl. reflexivity.
Qed.

Section ShutdownProperties.

Context {E : Type} `{Env E}.

Variable temp_dir_exists : E -> FS -> bool.
Variable rmtree_fault : E -> FS -> option (Exn * FS) * E.

(** X16.  [cleanup_resources] never raises.  It closes the held handle
    once; the reference is cleared when the close succeeds and stays on
    the closed-with-error handle when it raises.  [DB_PATH] is unchanged.
    When [temp_db] exists and its removal succeeds, no file below it is
    left; when it does not exist, the files are untouched. *)
Theorem cleanup_resources_outcome (st : State E) :
  let o1 := match _db_connection st with
            | Some h => snd (engine_close (oracle st) h)
            | None => oracle st
            end in
  exists st',
    cleanup_resources temp_dir_exists rmtree_fault st = (Return tt, st') /\
    DB_PATH st' = DB_PATH st /\
    match _db_connection st with
    | None => _db_connection st' = None /\ live_handles (trace st')
                                           = live_handles (trace st)
    | Some h =>
        match fst (engine_close (oracle st) h) with
        | None => _db_connection st' = None /\
                  In (EvClose h true) (trace st')
        | Some _ => _db_connection st' = Some h /\
                    In (EvClose h false) (trace st')
        end
    end /\
    (temp_dir_exists o1 (fs st) = false -> fs st' = fs st) /\
    (temp_dir_exists o1 (fs st) = true ->
     fst (rmtree_fault o1 (fs st)) = None ->
     forall p, startswith p (resolve $"temp_db" ++ $"/") = true ->
               fs_exists p (fs st') = false).
Proof.
  unfold cleanup_resources, rmtree. unfold_ctl. unfold conn_close.
  destruct st as [o f c p tr n]. cbn_st.
  destruct c as [h|]; cbn_st;
    [destruct (engine_close o h) as [[e|] o1]; cbn_st|];
    cbn [fst snd];
    match goal with
    | |- context [temp_dir_exists ?x ?y] =>
        destruct (temp_dir_exists x y) eqn:Hdir
    end;
    cbn_st;
    try match goal with
      | |- context [rmtree_fault ?x ?y] =>
          destruct (rmtree_fault x y) as [[[e2 left_over]|] o2] eqn:Hrm
      end;
    cbn_st; eexists; (split; [reflexivity|]); cbn_st;
    (split; [reflexivity|]);
    (split; [split; first [reflexivity | find_in]|]);
    (split; [first [reflexivity | discriminate]|]);
    first [discriminate
          | intros _ _ q Hq; apply fs_exists_rmtree; exact Hq
          | intros _ Hnone; discriminate Hnone ].
Qed.

End ShutdownProperties.

(** ** Concrete runs *)

Module Runs.

Import Scripted.

Lemma singleton_get_connection_run :
  singleton fresh /\
  fst (get_connection fresh) = Return first_handle /\
  fst (get_calls 3 (snd (get_connection fresh))) =
    [Return first_handle; Return first_handle; Return first_handle] /\
  live_handles (trace (snd (get_connection fresh))) = [first_handle].
Proof.
  assert (Hs : singleton fresh) by reflexivity.
  destruct (singleton_get_connection Hs) as [_ Hafter].
  assert (Hg : get_connection fresh
               = (Return first_handle, snd (get_connection fresh)))
    by (vm_compute; reflexivity).
  destruct (Hafter first_handle (snd (get_connection fresh)) Hg)
    as (Hl & _ & Hn).
  split; [exact Hs|]. split; [reflexivity|].
  split; [rewrite (Hn 3); reflexivity | exact Hl].
Defined.




Example scenario_D :
  let r := execute_query $"SELECT 1" (starting [Fail closed_error]) in
  fst r = Return (mkQueryResult None [] []) /\
  resets (trace (snd r)) = 1 /\ retries (trace (snd r)) = 1.
Proof. vm_compute. repeat split. Qed.

(** Scenario C: a syntax error is returned as it is, with no reset. *)
Example scenario_C :
  let r := execute_query $"SELEC 1" (starting [Fail syntax_error]) in
  fst r = Return (mkQueryResult
                    (Some $"Parser Error: syntax error at or near SELEC")
                    [] []) /\
  resets (trace (snd r)) = 0.
Proof. vm_compute. repeat split. Qed.

(** C3, counterexample to the claim as stated: with nothing at the
    configured path [execute_query] raises. *)
Lemma execute_query_raises_when_misconfigured :
  fst (execute_query $"SELECT 1" misconfigured) =
    Raise (mkExn FileNotFoundError
                 $"Database file not found: /app/missing.duckdb").
Proof. vm_compute. reflexivity. Qed.

Lemma execute_query_connection_failure_run :
  exists st',
    execute_query $"SELECT 1" misconfigured =
      (Raise (mkExn FileNotFoundError
                    $"Database file not found: /app/missing.duckdb"), st').
Proof.
  exists (snd (get_connection misconfigured)).
  apply (execute_query_connection_failure $"SELECT 1" misconfigured).
  vm_compute. reflexivity.
Defined.



Lemma reset_connection_contract_run :
  exists st' evs,
    reset_connection (serving []) = (Return true, st') /\
    trace st' = evs ++ trace (serving []) /\
    exists ok, In (EvClose first_handle ok) evs.
Proof.
  destruct (reset_connection_contract (serving []))
    as (b & st' & evs & Hr & Htr & _ & Hcl & _ & _ & _ & _ & _ & Hdec).
  destruct (Hdec [] (mkResultSet [] None) []) as [Hb _];
    [vm_compute; reflexivity | vm_compute; reflexivity |].
  rewrite Hb in Hr.
  exists st', evs. split; [exact Hr|]. split; [exact Htr|].
  apply Hcl. reflexivity.
Defined.

Lemma execute_query_zero_rows_run :
  exists st',
    execute_query $"SELECT id FROM t WHERE 1 = 0"
                  (starting [Succeed one_column])
    = (Return (mkQueryResult None [$"id"] []), st').
Proof.
  apply (execute_query_zero_rows
           $"SELECT id FROM t WHERE 1 = 0" (starting [Succeed one_column])
           (st1 := serving [Succeed one_column]) (conn := first_handle)
           (d := Some [($"id", $"INTEGER")]) (o := [])).
  - vm_compute. reflexivity.
  - vm_compute. reflexivity.
Defined.


(** C7, counterexample to the claim as stated: with the SQL on the line
    of the opening fence, everything up to the first line break is taken
    for the fence line. *)
Lemma strip_code_fences_drops_first_line :
  strip_code_fences
    (fence ++ $"SELECT a" ++ [newline] ++ $"FROM t" ++ fence) = $"FROM t" /\
  strip ($"SELECT a" ++ [newline] ++ $"FROM t")
    = $"SELECT a" ++ [newline] ++ $"FROM t" /\
  strip_code_fences
    (fence ++ $"SELECT a" ++ [newline] ++ $"FROM t" ++ fence)
    <> $"SELECT a" ++ [newline] ++ $"FROM t".
Proof. vm_compute. repeat split. discriminate. Qed.

Example strip_code_fences_tag_on_query_line :
  strip_code_fences $"```sql SELECT 1```" = $"sql SELECT 1".
Proof. vm_compute. reflexivity. Qed.

Lemma strip_code_fences_round_trip_run :
  strip_code_fences
    (fence ++ $"sql" ++ [newline] ++ $"SELECT 1" ++ [newline] ++ fence)
    = $"SELECT 1" /\
  strip_code_fences (fence ++ $"SELECT 1" ++ fence) = $"SELECT 1".
Proof.
  assert (Htag : find newline $"sql" = None) by reflexivity.
  destruct (strip_code_fences_round_trip $"sql" $"SELECT 1" Htag)
    as (_ & _ & Hblock & _ & Hinline).
  split.
  - rewrite Hblock. reflexivity.
  - rewrite Hinline; reflexivity.
Defined.

(** C8 (upload cleanup), where the code departs from it: the write of the
    uploaded file fails after [open] has created it; the endpoint reports
    the failure and the file, absent before the request, is there after
    it. *)
Lemma upload_write_failure_leaks_file :
  fs_exists scratch_file (fs (serving [done; done; Fail disk_full])) = false /\
  fst (change_database_endpoint upload
         (serving [done; done; Fail disk_full]))
    = Return (mkSwapResponse false
                $"An error occurred: [Errno 28] No space left on device") /\
  fs_exists scratch_file
    (fs (snd (change_database_endpoint upload
                (serving [done; done; Fail disk_full])))) = true.
Proof. vm_compute. repeat split. Qed.

(** The sibling path: the upload is written, the engine refuses it, and
    the endpoint removes the file. *)
Example upload_validation_failure_removes_file :
  fst (change_database_endpoint upload
         (serving [done; done; done; done; Fail not_a_database]))
    = Return (mkSwapResponse false
                $"Failed to connect: Failed to change database: IO Error: The file is not a valid DuckDB database file!") /\
  fs_exists scratch_file
    (fs (snd (change_database_endpoint upload
                (serving [done; done; done; done; Fail not_a_database]))))
    = false.
Proof. vm_compute. repeat split. Qed.

Example upload_txt_rejected :
  change_database_endpoint
    (mkRequest (Some (mkUploadFile $"data.txt" $"scratch"))) (serving [])
  = (Return (mkSwapResponse false
               $"Invalid file type. Please upload a .duckdb or .db file"),
     serving []).
Proof. vm_compute. reflexivity. Qed.

End Runs.

(** ** Concrete runs of the further properties *)

Module MoreRuns.

Import Scripted.

Lemma truncate_text_length_run :
  truncate_text $"SELECT" 6 = $"SELECT" /\
  List.length (truncate_text $"SELECT 1" 6) = 9.
Proof.
  destruct (truncate_text_length $"SELECT" 6) as (Hid & _).
  destruct (truncate_text_length $"SELECT 1" 6) as (_ & Hlen & _).
  split; [apply Hid | apply Hlen]; simpl; lia.
Defined.

Lemma is_json_shape_run :
  exists s body,
    VText $" [1, 2] " = VText s /\
    (strip s = $"{" ++ body ++ $"}" \/ strip s = $"[" ++ body ++ $"]") /\
    (fun _ : str => @None Exn) (strip s) = None.
Proof.
  apply (is_json_shape (fun _ => None) (VText $" [1, 2] ")). reflexivity.
Defined.

Lemma strip_code_fences_unfenced_run :
  strip_code_fences $"  SELECT 1;  " = $"SELECT 1;".
Proof.
  destruct (strip_code_fences_unfenced $"  SELECT 1;  " eq_refl)
    as (_ & Hplain & _).
  rewrite Hplain; reflexivity.
Defined.

Lemma connection_issue_substring_run :
  connection_issue
    (mkExn DuckDBError
           $"Catalog Error: Table with name t does not exist in DATABASE main")
  = true.
Proof.
  apply (connection_issue_substring
           (mkExn DuckDBError
              $"Catalog Error: Table with name t does not exist in DATABASE main")
           $"Catalog Error: Table with name t does not exist in "
           $"DATABASE" $" main").
  - reflexivity.
  - right. reflexivity.
Defined.

Lemma held_handle_never_raises_run :
  (exists r st',
      execute_query $"SELECT 1" (serving [Fail closed_error])
      = (Return r, st')) /\
  (exists names st',
      get_table_names (serving [Fail closed_error]) = (Return names, st')) /\
  (exists schema st',
      get_table_schema $"requests" (serving [Fail closed_error])
      = (Return schema, st')).
Proof.
  apply (held_handle_never_raises (serving [Fail closed_error])
           (h := first_handle)).
  reflexivity.
Defined.

Lemma execute_query_error_excludes_data_run :
  exists r st',
    execute_query $"SELEC 1" (serving [Fail syntax_error]) = (Return r, st')
    /\ qr_error r = Some (str_of_exn syntax_error)
    /\ qr_columns r = [] /\ qr_data r = [].
Proof.
  exists (mkQueryResult (Some (str_of_exn syntax_error)) [] []).
  exists (snd (execute_query $"SELEC 1" (serving [Fail syntax_error]))).
  assert (Hr : execute_query $"SELEC 1" (serving [Fail syntax_error])
               = (Return (mkQueryResult (Some (str_of_exn syntax_error))
                                        [] []),
                  snd (execute_query $"SELEC 1"
                                     (serving [Fail syntax_error]))))
    by (vm_compute; reflexivity).
  split; [exact Hr|]. split; [reflexivity|].
  apply (execute_query_error_excludes_data _ _ Hr). discriminate.
Defined.

Lemma get_connection_after_reset_or_swap_run :
  exists h,
    get_connection (snd (reset_connection (serving [])))
    = (Return h, snd (reset_connection (serving []))) /\
    conn_path h = $"/app/db.duckdb".
Proof.
  destruct (get_connection_after_reset_or_swap (serving []) $"db.duckdb")
    as [Hreset _].
  destruct (Hreset (snd (reset_connection (serving []))))
    as (h & Hg & Hp & _).
  - vm_compute. reflexivity.
  - exists h. split; [exact Hg | exact Hp].
Defined.

Lemma get_table_names_all_or_nothing_run :
  exists names st',
    get_table_names (serving [Succeed two_tables]) = (Return names, st') /\
    names = [VText $"requests"; VText $"users"].
Proof.
  assert (Hx : engine_execute (oracle (serving [Succeed two_tables]))
                 (fs (serving [Succeed two_tables])) first_handle
                 $"SHOW TABLES"
               = (Return two_tables, []))
    by (vm_compute; reflexivity).
  destruct (get_table_names_all_or_nothing
              (serving [Succeed two_tables]) (h := first_handle)
              eq_refl Hx)
    as (names & st' & Hr & Hall & _).
  exists names, st'. split; [exact Hr|]. apply Hall.
  repeat constructor; discriminate.
Defined.

Lemma upload_success_means_connected_run :
  exists h,
    DB_PATH (snd (change_database_endpoint upload (serving [])))
    = $"temp_db/upload.duckdb" /\
    _db_connection (snd (change_database_endpoint upload (serving [])))
    = Some h.
Proof.
  assert (Hr : change_database_endpoint upload (serving [])
               = (Return (mkSwapResponse true
                            $"Successfully connected to upload.duckdb"),
                  snd (change_database_endpoint upload (serving []))))
    by (vm_compute; reflexivity).
  destruct (@upload_success_means_connected _ _ upload
              (mkUploadFile $"upload.duckdb" $"scratch") (serving []) _ _
              eq_refl eq_refl Hr eq_refl)
    as (h & _ & _ & Hp & _ & Hh & _).
  exists h. split; [exact Hp | exact Hh].
Defined.

Lemma get_database_schema_info_held_run :
  exists info st',
    get_database_schema_info (serving [Succeed two_tables])
    = (Return info, st') /\
    dict_get (VText $"users") info <> None /\
    List.length info <= 2.
Proof.
  destruct (get_database_schema_info_held
              (serving [Succeed two_tables]) (h := first_handle) eq_refl)
    as (tables & st1 & info & st' & Hn & Hr & _ & Hall & Hlen).
  assert (Ht : tables = [VText $"requests"; VText $"users"]).
  { assert (Hn' : get_table_names (serving [Succeed two_tables])
                  = (Return [VText $"requests"; VText $"users"],
                     snd (get_table_names (serving [Succeed two_tables]))))
      by (vm_compute; reflexivity).
    rewrite Hn in Hn'. injection Hn' as ->. reflexivity. }
  subst tables. exists info, st'. split; [exact Hr|].
  split; [apply Hall; right; left; reflexivity | exact Hlen].
Defined.

Lemma schema_summary_on_broken_handle_run :
  exists st',
    get_database_schema_info (serving [Fail closed_error]) = (Return [], st').
Proof.
  assert (Hx : engine_execute (oracle (serving [Fail closed_error]))
                 (fs (serving [Fail closed_error])) first_handle
                 $"SHOW TABLES"
               = (Raise closed_error, []))
    by (vm_compute; reflexivity).
  destruct (schema_summary_on_broken_handle
              (serving [Fail closed_error]) (h := first_handle) eq_refl Hx)
    as (st' & Hr & _).
  exists st'. exact Hr.
Defined.

Lemma format_column_nullable_run :
  endswith (format_column nullable_no) $", NULL)" = true.
Proof.
  destruct (format_column_nullable nullable_no) as (_ & _ & Htext).
  apply (Htext $"NO"); [reflexivity | discriminate].
Defined.

(** The file that a failed write left in [temp_db] is gone after a
    shutdown that removes the directory. *)
Lemma cleanup_resources_outcome_run :
  exists st',
    cleanup_resources (fun _ _ => true) (fun s _ => (None, s))
      (snd (change_database_endpoint upload
              (serving [done; done; Fail disk_full])))
    = (Return tt, st') /\
    fs_exists scratch_file (fs st') = false.
Proof.
  destruct (cleanup_resources_outcome (fun _ _ => true)
              (fun (s : Script) (_ : FS) => (@None (Exn * FS), s))
              (snd (change_database_endpoint upload
                      (serving [done; done; Fail disk_full]))))
    as (st' & Hr & _ & _ & _ & Hgone).
  exists st'. split; [exact Hr|].
  apply Hgone; reflexivity.
Defined.

Lemma change_database_endpoint_refusals_run :
  change_database_endpoint
    (mkRequest (Some (mkUploadFile $"data.txt" $"scratch"))) (serving [])
  = (Return (mkSwapResponse false
               $"Invalid file type. Please upload a .duckdb or .db file"),
     serving []).
Proof.
  destruct (change_database_endpoint_refusals
              (mkRequest (Some (mkUploadFile $"data.txt" $"scratch")))
              (serving []))
    as (_ & _ & _ & Hext).
  apply (Hext (mkUploadFile $"data.txt" $"scratch")).
  - reflexivity.
  - discriminate.
  - reflexivity.
Defined.

End MoreRuns.
